(** * HEALTHHACK front-end: a shallow embedding of [frontend.py]

    The Python module glues together a generative-AI call with retry
    ([analyze_medical_report], [fallback_analysis]), a PDF text extractor
    ([extract_text_from_pdf]), a places lookup ([get_doctors]) and the
    Streamlit script body ([main]).  Every effect of the module (remote
    calls, sleeping, user-visible messages, temporary files) is threaded
    through an explicit [world]; Python exceptions are the [Raise] outcome
    of a small state-and-exception monad. *)

From Stdlib Require Import String Ascii NArith ZArith.
From Stdlib Require Import DecimalString DecimalNat DecimalFacts.
From stdpp Require Import gmap list list_monad strings.

Set Warnings "-register-all".

(** ** Python strings *)

(** A Python [str] is a sequence of Unicode code points. *)
Abbreviation str := (list N).

(** The bytes of an uploaded or temporary file. *)
Abbreviation bytes := (list Byte.byte).

(** A literal of the source, character by character. *)
Definition lit (s : string) : str :=
  map N_of_ascii (list_ascii_of_string s).

(** The line feed of the triple-quoted literals and of the f-string escapes. *)
Definition nl : str := [10%N].

(** [str(n)] and [f"{n}"] for a non-negative [int]. *)
Definition str_of_nat (n : nat) : str :=
  lit (NilZero.string_of_uint (Nat.to_uint n)).

(** [str.isspace] on one code point: the code points CPython lists as
    whitespace. *)
Definition isspace (c : N) : bool :=
  ((9 <=? c) && (c <=? 13) || (28 <=? c) && (c <=? 32)
   || (c =? 133) || (c =? 160) || (c =? 5760)
   || (8192 <=? c) && (c <=? 8202)
   || (c =? 8232) || (c =? 8233) || (c =? 8239) || (c =? 8287)
   || (c =? 12288))%N.

(** [s.split()]: maximal runs of non-whitespace, [cur] being the run under
    construction. *)
Fixpoint split_from (cur : str) (s : str) : list str :=
  match s with
  | [] => match cur with [] => [] | _ => [cur] end
  | c :: rest =>
      if isspace c
      then match cur with
           | [] => split_from [] rest
           | _ => cur :: split_from [] rest
           end
      else split_from (cur ++ [c]) rest
  end.

Definition split (s : str) : list str := split_from [] s.

(** [sep.join(parts)]. *)
Fixpoint join (sep : str) (parts : list str) : str :=
  match parts with
  | [] => []
  | [p] => p
  | p :: rest => p ++ sep ++ join sep rest
  end.

(** [needle in hay]. *)
Definition contains (hay needle : str) : Prop :=
  exists before after, hay = before ++ needle ++ after.

(** ** Exceptions *)

Inductive exn : Type :=
| GoogleAPIError (msg : str)   (* exceptions.GoogleAPIError or a subclass; msg is str(e) *)
| PyError (cls : string).      (* any other exception, by class name *)

Inductive result (A : Type) : Type :=
| Ret (a : A)
| Raise (e : exn).
Arguments Ret {A} a.
Arguments Raise {A} e.

(** ** Values decoded by [response.json()]

    A number keeps its literal text: the program never computes with one. *)
Inductive json : Type :=
| JNull
| JBool (b : bool)
| JNum (text : str)
| JStr (s : str)
| JArr (items : list json)
| JObj (fields : gmap str json).

(** ** External objects *)

(** A decoded [PIL.Image]: its pixel data, what formatting it into an
    f-string gives ([image_str]), and what [len(image.split())] gives
    ([image_split]: the number of bands, or the exception raised). *)
Record image : Type := Image {
  image_data : bytes;
  image_str : str;
  image_split : result nat
}.

(** A page of a [PyPDF2.PdfReader]: what [page.extract_text()] does. *)
Record page : Type := Page { extract_text : result str }.

(** A [requests.Response]: [status_code] and what [json()] does. *)
Record response : Type := Response {
  status_code : Z;
  response_json : result json
}.

(** The [content] argument of the analyzer: the callers pass a decoded image
    or the text of a PDF. *)
Inductive content : Type :=
| CImage (i : image)
| CText (s : str).

(** The argument of [model.generate_content]. *)
Inductive payload : Type :=
| Parts (prompt : str) (c : content)   (* generate_content([prompt, content]) *)
| Single (text : str).                 (* generate_content(f"...") *)

(** A file made by [tempfile.NamedTemporaryFile(delete=False, suffix=...)]. *)
Record tmp_file : Type := TmpFile { tmp_suffix : str; tmp_data : bytes }.

(** What the outside can observe of a run, in order. *)
Inductive event : Type :=
| EvGenerate (p : payload) (outcome : result str)
| EvSleep (secs : nat)
| EvHttpGet (url : str)
| EvTitle (s : str)
| EvWrite (v : option str)
| EvSubheader (s : str)
| EvImage (i : image)
| EvWarning (s : str)
| EvError (s : str).

(** ** The world

    [model_api n p] is what the [n]-th call of the remote model does on
    payload [p]: the text of the response, or the exception raised by
    [generate_content] or by reading [response.text].  [places_api n url] is
    what the [n]-th [requests.get] does.  [py_str] is Python's [str()] on a
    decoded JSON value that is not itself a [str]. *)
Record world : Type := World {
  google_maps_api_key : option str;
  model_api : nat -> payload -> result str;
  model_calls : nat;
  places_api : nat -> str -> result response;
  http_calls : nat;
  py_str : json -> str;
  pil_open : bytes -> result image;
  pdf_reader : bytes -> result (list page);
  tmp_files : gmap nat tmp_file;
  trace : list event
}.

Definition with_trace (t : list event) (w : world) : world :=
  World (google_maps_api_key w) (model_api w) (model_calls w) (places_api w)
        (http_calls w) (py_str w) (pil_open w) (pdf_reader w) (tmp_files w) t.

Definition with_model_calls (n : nat) (w : world) : world :=
  World (google_maps_api_key w) (model_api w) n (places_api w)
        (http_calls w) (py_str w) (pil_open w) (pdf_reader w) (tmp_files w)
        (trace w).

Definition with_http_calls (n : nat) (w : world) : world :=
  World (google_maps_api_key w) (model_api w) (model_calls w) (places_api w)
        n (py_str w) (pil_open w) (pdf_reader w) (tmp_files w) (trace w).

Definition with_tmp_files (fs : gmap nat tmp_file) (w : world) : world :=
  World (google_maps_api_key w) (model_api w) (model_calls w) (places_api w)
        (http_calls w) (py_str w) (pil_open w) (pdf_reader w) fs (trace w).

(** ** The effect monad *)

Definition M (A : Type) : Type := world -> result A * world.

#[export] Instance M_ret : MRet M := fun A a w => (Ret a, w).

#[export] Instance M_bind : MBind M := fun A B k m w =>
  match m w with
  | (Ret a, w') => k a w'
  | (Raise e, w') => (Raise e, w')
  end.

(** A computation of the host language that may raise. *)
Definition lift {A} (r : result A) : M A := fun w => (r, w).

Definition ask {A} (f : world -> A) : M A := fun w => (Ret (f w), w).

(** A call into a library whose behaviour the world fixes. *)
Definition call {A} (f : world -> result A) : M A := fun w => (f w, w).

Definition emit (e : event) : M unit :=
  fun w => (Ret tt, with_trace (trace w ++ [e]) w).

(** [try: body  except exceptions.GoogleAPIError as e: handler(str(e))]:
    any other exception passes through. *)
Definition try_except_GoogleAPIError {A} (body : M A) (handler : str -> M A)
  : M A :=
  fun w =>
    match body w with
    | (Raise (GoogleAPIError msg), w') => handler msg w'
    | other => other
    end.

(** A [for] loop whose body may [return]: [Some v] is [return v], [None]
    falls through to the next iteration; running off the end of the range is
    the implicit [return None] of a Python function. *)
Fixpoint for_range {A} (body : nat -> M (option A)) (range : list nat)
  : M (option A) :=
  match range with
  | [] => mret None
  | i :: rest =>
      r ← body i;
      match r with
      | Some v => mret (Some v)
      | None => for_range body rest
      end
  end.

(** ** Streamlit and the clock *)

Definition st_warning (s : str) : M unit := emit (EvWarning s).
Definition st_error (s : str) : M unit := emit (EvError s).
Definition st_title (s : str) : M unit := emit (EvTitle s).
Definition st_subheader (s : str) : M unit := emit (EvSubheader s).
Definition st_write (v : option str) : M unit := emit (EvWrite v).
Definition st_image (i : image) : M unit := emit (EvImage i).

Definition time_sleep (secs : nat) : M unit := emit (EvSleep secs).

(** ** Report Analyzer *)

Definition MAX_RETRIES : nat := 3.
Definition RETRY_DELAY : nat := 2.

(** The triple-quoted prompt, line by line, with its four-space indent. *)
Definition prompt : str :=
  nl ++ lit "    Analyze the provided medical report and provide:"
  ++ nl ++ lit "    1. Current health issues detected."
  ++ nl ++ lit "    2. Possible future problems if untreated."
  ++ nl ++ lit "    3. Recommended doctors and specializations required."
  ++ nl ++ lit "    4. Necessary dietary restrictions based on the conditions found."
  ++ nl ++ lit "    5. Additional medical tests or investigations suggested."
  ++ nl ++ lit "    6. Lifestyle changes to improve overall health."
  ++ nl ++ lit "    Provide your response in a structured manner."
  ++ nl ++ lit "    ".

(** [f"{content}"]. *)
Definition format_content (c : content) : str :=
  match c with
  | CText s => s
  | CImage i => image_str i
  end.

(** [len(content.split())]. *)
Definition len_split (c : content) : result nat :=
  match c with
  | CText s => Ret (length (split s))
  | CImage i => image_split i
  end.

(** [model.generate_content(p).text]: one call of the remote model, counted
    and recorded with its outcome. *)
Definition generate_text (p : payload) : M str :=
  fun w =>
    let r := model_api w (model_calls w) p in
    (r, with_trace (trace w ++ [EvGenerate p r])
          (with_model_calls (S (model_calls w)) w)).

Definition fallback_text (word_count : nat) : str :=
  nl ++ lit "        Fallback Analysis:"
  ++ nl ++ lit "        - Document Type: Text-based medical report"
  ++ nl ++ lit "        - Word Count: " ++ str_of_nat word_count ++ lit " words"
  ++ nl ++ lit "        - Unable to analyze content in detail due to AI issues. Please consult a doctor manually."
  ++ nl ++ lit "        ".

Definition fallback_analysis (c : content) (content_type : str) : M str :=
  st_warning (lit "Using fallback analysis method due to API issues.");;
  if decide (content_type = lit "image")
  then mret (lit "Unable to analyze the image due to API issues. Please try again later.")
  else
    word_count ← lift (len_split c);
    mret (fallback_text word_count).

(** The argument handed to the model, by content type. *)
Definition request (c : content) (content_type : str) : payload :=
  if decide (content_type = lit "image")
  then Parts prompt c
  else Single (prompt ++ nl ++ nl ++ format_content c).

(** The body of the retry loop for one value of [attempt]. *)
Definition attempt_body (c : content) (content_type : str) (attempt : nat)
  : M (option str) :=
  try_except_GoogleAPIError
    (text ← generate_text (request c content_type);
     mret (Some text))
    (fun e =>
       if attempt <? MAX_RETRIES - 1
       then
         st_warning (lit "An error occurred. Retrying in "
                     ++ str_of_nat RETRY_DELAY
                     ++ lit " seconds... (Attempt "
                     ++ str_of_nat (attempt + 1) ++ lit "/"
                     ++ str_of_nat MAX_RETRIES ++ lit ")");;
         time_sleep RETRY_DELAY;;
         mret None
       else
         st_error (lit "Failed to analyze the report after "
                   ++ str_of_nat MAX_RETRIES
                   ++ lit " attempts. Error: " ++ e);;
         r ← fallback_analysis c content_type;
         mret (Some r)).

Definition analyze_medical_report (c : content) (content_type : str)
  : M (option str) :=
  for_range (attempt_body c content_type) (seq 0 MAX_RETRIES).

(** ** Content Extractor *)

(** [for page in pages: text += page.extract_text()]. *)
Fixpoint extract_pages (text : str) (pages : list page) : M str :=
  match pages with
  | [] => mret text
  | p :: rest =>
      t ← lift (extract_text p);
      extract_pages (text ++ t) rest
  end.

Definition extract_text_from_pdf (pdf_file : bytes) : M str :=
  pages ← call (fun w => pdf_reader w pdf_file);
  extract_pages [] pages.

(** ** Doctor Finder *)

(** Truth value of the module-level [google_maps_api_key]: [os.getenv] gives
    [None] or a string, and the empty string is false as well. *)
Definition truthy (key : option str) : bool :=
  match key with
  | Some (_ :: _) => true
  | _ => false
  end.

(** [f"{google_maps_api_key}"]. *)
Definition format_key (key : option str) : str :=
  match key with
  | Some k => k
  | None => lit "None"
  end.

Definition places_url (key : option str) (location specialization : str)
  : str :=
  lit "https://maps.googleapis.com/maps/api/place/textsearch/json?query="
  ++ specialization ++ lit "+doctor+near+" ++ location
  ++ lit "&key=" ++ format_key key.

(** [requests.get(url)]: one request, counted and recorded. *)
Definition requests_get (url : str) : M response :=
  fun w =>
    (places_api w (http_calls w) url,
     with_trace (trace w ++ [EvHttpGet url])
       (with_http_calls (S (http_calls w)) w)).

(** [body.get("results", [])]: only a dict has [get]. *)
Definition get_results (body : json) : result json :=
  match body with
  | JObj fields => Ret (default (JArr []) (fields !! lit "results"))
  | _ => Raise (PyError "AttributeError")
  end.

(** The elements iterated by [for doc in results[:5]]: a list and a string
    can be sliced (a string yields its characters), nothing else can (a dict
    fails with TypeError, with KeyError from Python 3.12 on). *)
Definition first_five (results : json) : result (list json) :=
  match results with
  | JArr items => Ret (take 5 items)
  | JStr s => Ret ((fun c => JStr [c]) <$> take 5 s)
  | _ => Raise (PyError "TypeError")
  end.

(** [doc[key]] for a string key. *)
Definition subscript (doc : json) (key : str) : result json :=
  match doc with
  | JObj fields =>
      match fields !! key with
      | Some v => Ret v
      | None => Raise (PyError "KeyError")
      end
  | _ => Raise (PyError "TypeError")
  end.

(** [f"{v}"] for a decoded value. *)
Definition format_json (render : json -> str) (v : json) : str :=
  match v with
  | JStr s => s
  | _ => render v
  end.

(** [f"{doc['name']} - {doc['formatted_address']}"]. *)
Definition format_doc (doc : json) : M str :=
  name ← lift (subscript doc (lit "name"));
  address ← lift (subscript doc (lit "formatted_address"));
  render ← ask py_str;
  mret (format_json render name ++ lit " - " ++ format_json render address).

Definition no_key_message : str :=
  lit "Google Maps API Key not found. Cannot fetch doctor recommendations.".

Definition no_doctors_message : str :=
  lit "No doctors found or API issue occurred.".

Definition get_doctors (location specialization : str) : M (list str) :=
  key ← ask google_maps_api_key;
  if negb (truthy key)
  then mret [no_key_message]
  else
    response ← requests_get (places_url key location specialization);
    if (status_code response =? 200)%Z
    then
      body ← lift (response_json response);
      results ← lift (get_results body);
      docs ← lift (first_five results);
      mapM format_doc docs
    else mret [no_doctors_message].

(** The default of the [specialization] parameter. *)
Definition default_specialization : str := lit "General Practitioner".

(** ** Temporary files *)

(** [with tempfile.NamedTemporaryFile(delete=False, suffix=s) as tmp_file:
    tmp_file.write(data); tmp_file_path = tmp_file.name]: a file under a
    name not in use. *)
Definition NamedTemporaryFile_write (suffix : str) (data : bytes) : M nat :=
  fun w =>
    let name := fresh (dom (tmp_files w)) in
    (Ret name, with_tmp_files (<[name := TmpFile suffix data]> (tmp_files w)) w).

(** Reading the file at [path]: [open(path, 'rb')]. *)
Definition read_file (path : nat) : M bytes :=
  fun w =>
    match tmp_files w !! path with
    | Some f => (Ret (tmp_data f), w)
    | None => (Raise (PyError "FileNotFoundError"), w)
    end.

(** [Image.open(path)]. *)
Definition Image_open (path : nat) : M image :=
  data ← read_file path;
  call (fun w => pil_open w data).

(** [os.unlink(path)]. *)
Definition os_unlink (path : nat) : M unit :=
  fun w =>
    match tmp_files w !! path with
    | Some _ => (Ret tt, with_tmp_files (delete path (tmp_files w)) w)
    | None => (Raise (PyError "FileNotFoundError"), w)
    end.

(** ** Presentation Layer *)

(** The widget values of one run of the script: the location field, the
    file-type radio, the uploader and the button of the branch taken. *)
Record session : Type := Session {
  ui_location : str;
  ui_file_type : str;
  ui_uploaded_file : option bytes;
  ui_button : bool
}.

Definition main (ui : session) : M unit :=
  st_title (lit "HEALTH DIAGNOSIS");;
  st_write (Some (lit "Upload a medical report (image or PDF) for AI-based analysis."));;
  let location := ui_location ui in
  let file_type := ui_file_type ui in
  if decide (file_type = lit "Image")
  then
    match ui_uploaded_file ui with
    | Some uploaded =>
        tmp_file_path ← NamedTemporaryFile_write (lit ".png") uploaded;
        image ← Image_open tmp_file_path;
        st_image image;;
        (if ui_button ui
         then
           analysis ← analyze_medical_report (CImage image) (lit "image");
           st_subheader (lit "Report Analysis Results:");;
           st_write analysis;;
           match location with
           | _ :: _ =>
               doctors ← get_doctors location default_specialization;
               st_subheader (lit "Recommended Doctors:");;
               st_write (Some (join nl doctors))
           | [] => mret tt
           end
         else mret tt);;
        os_unlink tmp_file_path
    | None => mret tt
    end
  else
    match ui_uploaded_file ui with
    | Some uploaded =>
        st_write (Some (lit "PDF uploaded successfully"));;
        if ui_button ui
        then
          tmp_file_path ← NamedTemporaryFile_write (lit ".pdf") uploaded;
          pdf_file ← read_file tmp_file_path;
          pdf_text ← extract_text_from_pdf pdf_file;
          analysis ← analyze_medical_report (CText pdf_text) (lit "text");
          st_subheader (lit "Report Analysis Results:");;
          st_write analysis;;
          match location with
          | _ :: _ =>
              doctors ← get_doctors location default_specialization;
              st_subheader (lit "Recommended Doctors:");;
              st_write (Some (join nl doctors))
          | [] => mret tt
          end;;
          os_unlink tmp_file_path
        else mret tt
    | None => mret tt
    end.

(** * Properties *)

(** ** Running the monad *)

Arguments lit : simpl never.
Arguments str_of_nat : simpl never.
Arguments prompt : simpl never.
Arguments fallback_text : simpl never.
Arguments places_url : simpl never.

Lemma run_bind {A B} (m : M A) (k : A -> M B) (w : world) :
  (m ≫= k) w =
  match m w with
  | (Ret a, w') => k a w'
  | (Raise e, w') => (Raise e, w')
  end.
Proof. reflexivity. Qed.

(** Unfolds the primitives of the monad and of the Streamlit layer. *)
Ltac run :=
  unfold st_warning, st_error, st_title, st_subheader, st_write, st_image,
    time_sleep, emit, lift, ask, call, generate_text, requests_get,
    try_except_GoogleAPIError, mbind, mret, M_bind, M_ret in *;
  simpl in *.

(** ** The timeline of an invocation of the analyzer *)

(** The events that matter for the retry policy: a call of the remote model
    (with whether it failed with an API error) and a wait. *)
Inductive tick : Type :=
| Attempt (api_error : bool)
| Wait (secs : nat).

Definition is_api_error {A} (r : result A) : bool :=
  match r with
  | Raise (GoogleAPIError _) => true
  | _ => false
  end.

Definition tick_of (e : event) : option tick :=
  match e with
  | EvGenerate _ r => Some (Attempt (is_api_error r))
  | EvSleep secs => Some (Wait secs)
  | _ => None
  end.

Definition timeline (evs : list event) : list tick := omap tick_of evs.

Definition is_attempt (t : tick) : bool :=
  match t with Attempt _ => true | Wait _ => false end.

Definition attempts (t : list tick) : nat := length (filter is_attempt t).

(** The three timelines an invocation can have. *)
Inductive schedule : list tick -> Prop :=
| schedule_first (a : bool) : schedule [Attempt a]
| schedule_second (a : bool) :
    schedule [Attempt true; Wait RETRY_DELAY; Attempt a]
| schedule_third (a : bool) :
    schedule [Attempt true; Wait RETRY_DELAY; Attempt true;
              Wait RETRY_DELAY; Attempt a].

Lemma fallback_analysis_trace c ct w :
  trace (snd (fallback_analysis c ct w)) =
  trace w ++ [EvWarning (lit "Using fallback analysis method due to API issues.")].
Proof.
  unfold fallback_analysis. run.
  destruct (decide (ct = lit "image")); simpl; [reflexivity|].
  destruct (len_split c); reflexivity.
Qed.

Lemma fallback_analysis_calls c ct w :
  model_calls (snd (fallback_analysis c ct w)) = model_calls w.
Proof.
  unfold fallback_analysis. run.
  destruct (decide (ct = lit "image")); simpl; [reflexivity|].
  destruct (len_split c); reflexivity.
Qed.

Ltac close_schedule :=
  rewrite <- ?app_assoc; simpl;
  eexists; split; [reflexivity|]; simpl;
  split; [constructor | unfold attempts; simpl; lia].

Lemma analyze_schedule c ct w :
  exists evs,
    trace (snd (analyze_medical_report c ct w)) = trace w ++ evs
    /\ schedule (timeline evs)
    /\ model_calls (snd (analyze_medical_report c ct w))
       = model_calls w + attempts (timeline evs).
Proof.
  unfold analyze_medical_report, attempt_body. simpl. run.
  destruct (model_api w (model_calls w) (request c ct)) as [t0|[m0|x0]];
    simpl; [close_schedule| |close_schedule].
  destruct (model_api w (S (model_calls w)) (request c ct)) as [t1|[m1|x1]];
    simpl; [close_schedule| |close_schedule].
  destruct (model_api w (S (S (model_calls w))) (request c ct))
    as [t2|[m2|x2]]; simpl; [close_schedule| |close_schedule].
  match goal with
  | |- context [fallback_analysis c ct ?w'] =>
      pose proof (fallback_analysis_trace c ct w') as Ht;
      pose proof (fallback_analysis_calls c ct w') as Hc;
      destruct (fallback_analysis c ct w') as [[r|e] w'']
  end; simpl in *; rewrite Ht, Hc; close_schedule.
Qed.

(** X7.  With [MAX_RETRIES = 3] the loop never runs off its range: a call
    that returns, returns a text and not the implicit [None]. *)
Lemma analyze_returns_text c ct w v :
  fst (analyze_medical_report c ct w) = Ret v -> exists text, v = Some text.
Proof.
  unfold analyze_medical_report, attempt_body. simpl. run.
  destruct (model_api w (model_calls w) (request c ct)) as [t0|[m0|x0]];
    simpl; [intros [= <-]; eauto | | discriminate].
  destruct (model_api w (S (model_calls w)) (request c ct)) as [t1|[m1|x1]];
    simpl; [intros [= <-]; eauto | | discriminate].
  destruct (model_api w (S (S (model_calls w))) (request c ct))
    as [t2|[m2|x2]]; simpl; [intros [= <-]; eauto | | discriminate].
  match goal with
  | |- context [fallback_analysis c ct ?w'] =>
      destruct (fallback_analysis c ct w') as [[r|e] w'']
  end; simpl; [intros [= <-]; eauto | discriminate].
Qed.

(** Splits an equation between a concrete list and an append. *)
Ltac split_list :=
  repeat match goal with
    | H : _ :: _ = ?l ++ _ |- _ =>
        is_var l; destruct l; simpl in H; simplify_eq
    | H : [] = ?l ++ _ |- _ =>
        is_var l; destruct l; simpl in H; simplify_eq
    | H : attempts (_ :: _) = 0 |- _ => unfold attempts in H; simpl in H; simplify_eq
    end.

Lemma schedule_attempts t : schedule t -> attempts t <= MAX_RETRIES.
Proof. destruct 1; unfold attempts, MAX_RETRIES; simpl; lia. Qed.

Lemma schedule_between t pre a mid b post :
  schedule t ->
  t = pre ++ Attempt a :: mid ++ Attempt b :: post ->
  attempts mid = 0 ->
  a = true /\ mid = [Wait 2].
Proof.
  destruct 1; intros E Hmid; split_list; try done.
Qed.

Lemma schedule_after_last t pre a post :
  schedule t ->
  t = pre ++ Attempt a :: post ->
  attempts post = 0 ->
  post = [].
Proof.
  destruct 1; intros E Hpost; split_list; try done.
Qed.

Lemma schedule_waits t secs : schedule t -> Wait secs ∈ t -> secs = RETRY_DELAY.
Proof.
  destruct 1; intros Hin; repeat (apply elem_of_cons in Hin as [Hin|Hin]);
    try congruence; by apply elem_of_nil in Hin.
Qed.

(** C1.  Every invocation of [analyze_medical_report] calls the remote model
    at most 3 times; two consecutive attempts are separated by exactly one
    wait of 2 seconds (and the earlier of the two failed with an API error);
    nothing, in particular no wait, follows the last attempt; every wait is
    2 seconds long. *)
Theorem analyze_medical_report_retry_policy (c : content) (ct : str) (w : world) :
  exists evs,
    let w' := snd (analyze_medical_report c ct w) in
    let t := timeline evs in
    trace w' = trace w ++ evs
    /\ model_calls w' = model_calls w + attempts t
    /\ attempts t <= 3
    /\ (forall pre a mid b post,
          t = pre ++ Attempt a :: mid ++ Attempt b :: post ->
          attempts mid = 0 ->
          a = true /\ mid = [Wait 2])
    /\ (forall pre a post,
          t = pre ++ Attempt a :: post -> attempts post = 0 -> post = [])
    /\ (forall secs, Wait secs ∈ t -> secs = 2).
Proof.
  destruct (analyze_schedule c ct w) as (evs & Htrace & Hsched & Hcalls).
  exists evs. cbv zeta. split; [exact Htrace|]. split; [exact Hcalls|].
  split; [exact (schedule_attempts _ Hsched)|].
  split; [intros pre a mid b post; exact (schedule_between _ _ _ _ _ _ Hsched)|].
  split; [intros pre a post; exact (schedule_after_last _ _ _ _ Hsched)|].
  intros secs; exact (schedule_waits _ _ Hsched).
Qed.

(** ** Reading a decimal numeral

    The numeral a reader expects for a count: one or more of the digits
    [0] to [9], without a leading zero unless it is the numeral [0]
    itself.  [read_decimal] is written without reference to [str_of_nat]. *)

Definition digit_value (ch : N) : option nat :=
  if ((48 <=? ch) && (ch <=? 57))%N then Some (N.to_nat (ch - 48)) else None.

Fixpoint read_digits (acc : nat) (s : str) : option nat :=
  match s with
  | [] => Some acc
  | ch :: rest =>
      match digit_value ch with
      | Some d => read_digits (10 * acc + d) rest
      | None => None
      end
  end.

Definition read_decimal (s : str) : option nat :=
  match s with
  | [] => None
  | [_] => read_digits 0 s
  | ch :: _ => if (ch =? 48)%N then None else read_digits 0 s
  end.

Lemma lit_String c s : lit (String c s) = N_of_ascii c :: lit s.
Proof. reflexivity. Qed.

Lemma read_digits_uint d : forall acc,
  read_digits acc (lit (NilEmpty.string_of_uint d))
  = Some (Nat.of_uint_acc d acc).
Proof.
  induction d; intros acc; cbn [NilEmpty.string_of_uint Nat.of_uint_acc];
    [reflexivity|..];
    rewrite lit_String; cbn [read_digits];
    match goal with
    | |- context [digit_value ?c] =>
        let v := eval vm_compute in (digit_value c) in
        change (digit_value c) with v
    end; cbv beta iota; rewrite IHd, Nat.tail_mul_spec; do 2 f_equal; lia.
Qed.

Lemma nzhead_not_D0 d d' : Decimal.nzhead d <> Decimal.D0 d'.
Proof. induction d; simpl; try discriminate. exact IHd. Qed.

Lemma to_uint_normal n : Decimal.unorm (Nat.to_uint n) = Nat.to_uint n.
Proof.
  rewrite <- (Unsigned.of_to n) at 2. symmetry. apply Unsigned.to_of.
Qed.

(** The numeral written for [n] reads back as [n]. *)
Lemma read_decimal_str_of_nat n : read_decimal (str_of_nat n) = Some n.
Proof.
  unfold str_of_nat.
  pose proof (to_uint_normal n) as Hnorm.
  pose proof (Unsigned.of_to n) as Hof.
  pose proof (read_digits_uint (Nat.to_uint n) 0) as Hread.
  fold (Nat.of_uint (Nat.to_uint n)) in Hread. rewrite Hof in Hread.
  unfold Decimal.unorm in Hnorm.
  destruct (Nat.to_uint n) as [|d|d|d|d|d|d|d|d|d|d] eqn:E;
    try (destruct (Decimal.nzhead _); discriminate);
    cbn [NilZero.string_of_uint NilEmpty.string_of_uint] in *;
    rewrite !lit_String in *;
    try (unfold read_decimal;
         destruct (lit (NilEmpty.string_of_uint d)); exact Hread).
  (* D0 d: only the numeral 0 *)
  simpl Decimal.nzhead in Hnorm.
  destruct (Decimal.nzhead d) eqn:Ed; try discriminate Hnorm.
  - injection Hnorm as <-. exact Hread.
  - destruct (nzhead_not_D0 _ _ Ed).
Qed.

Lemma digit_value_inv ch v :
  digit_value ch = Some v -> v < 10 /\ ch = (48 + N.of_nat v)%N.
Proof.
  unfold digit_value.
  destruct ((48 <=? ch) && (ch <=? 57))%N eqn:E; [|discriminate].
  intros [= <-]. apply andb_true_iff in E as [H1 H2].
  apply N.leb_le in H1, H2. lia.
Qed.

(** A string of digits is the print of some [uint]. *)
Lemma read_digits_inv s : forall acc v,
  read_digits acc s = Some v ->
  exists d, s = lit (NilEmpty.string_of_uint d) /\ v = Nat.of_uint_acc d acc.
Proof.
  induction s as [|ch s IH]; intros acc v; simpl.
  - intros [= <-]. by exists Decimal.Nil.
  - destruct (digit_value ch) as [k|] eqn:Hk; [|discriminate].
    intros Hv. apply IH in Hv as (d & -> & ->).
    apply digit_value_inv in Hk as [Hlt ->].
    destruct k as [|[|[|[|[|[|[|[|[|[|k]]]]]]]]]];
      [ exists (Decimal.D0 d) | exists (Decimal.D1 d) | exists (Decimal.D2 d)
      | exists (Decimal.D3 d) | exists (Decimal.D4 d) | exists (Decimal.D5 d)
      | exists (Decimal.D6 d) | exists (Decimal.D7 d) | exists (Decimal.D8 d)
      | exists (Decimal.D9 d) | lia ];
      (split; [reflexivity|];
       cbn [Nat.of_uint_acc]; rewrite Nat.tail_mul_spec; f_equal; lia).
Qed.

(** Only the numeral written for [n] reads as [n]. *)
Lemma read_decimal_inv s n : read_decimal s = Some n -> s = str_of_nat n.
Proof.
  intros Hread.
  assert (exists d, s = lit (NilEmpty.string_of_uint d)
                    /\ n = Nat.of_uint d
                    /\ Decimal.unorm d = d) as (d & -> & -> & Hnorm).
  { destruct s as [|ch s]; [discriminate|].
    assert (Hd : read_digits 0 (ch :: s) = Some n).
    { unfold read_decimal in Hread. destruct s; [exact Hread|].
      destruct (ch =? 48)%N; [discriminate | exact Hread]. }
    destruct (read_digits_inv _ _ _ Hd) as (d & Es & En).
    exists d. split; [exact Es|]. split; [exact En|].
    destruct d as [|d|d|d|d|d|d|d|d|d|d]; try reflexivity;
      [discriminate Es|].
    destruct d as [|d|d|d|d|d|d|d|d|d|d]; [reflexivity|..];
      cbn [NilEmpty.string_of_uint] in Es; rewrite !lit_String in Es;
      injection Es as -> ->; discriminate Hread. }
  unfold str_of_nat. rewrite Unsigned.to_of, Hnorm.
  destruct d; try reflexivity. discriminate Hnorm.
Qed.

(** X25.  The number written into the messages is the canonical decimal
    numeral: a string reads as [n] exactly when it is the rendering of [n]. *)
Theorem str_of_nat_decimal (s : str) (n : nat) :
  read_decimal s = Some n <-> s = str_of_nat n.
Proof.
  split; [apply read_decimal_inv | intros ->; apply read_decimal_str_of_nat].
Qed.

Example read_decimal_examples :
  read_decimal (lit "0") = Some 0 /\ read_decimal (lit "3") = Some 3
  /\ read_decimal (lit "120") = Some 120 /\ read_decimal (lit "03") = None
  /\ read_decimal [] = None /\ read_decimal (lit "1 2") = None.
Proof. repeat split. Qed.

Example str_of_nat_examples :
  str_of_nat 0 = lit "0" /\ str_of_nat 3 = lit "3" /\ str_of_nat 120 = lit "120".
Proof. repeat split. Qed.

(** ** Exhausted retries *)

(** All [MAX_RETRIES] calls of an invocation started in [w] fail with an API
    error. *)
Definition all_attempts_fail (c : content) (ct : str) (w : world) : Prop :=
  forall i, i < MAX_RETRIES ->
    is_api_error (model_api w (model_calls w + i) (request c ct)) = true.

Lemma is_api_error_inv {A} (r : result A) :
  is_api_error r = true -> exists msg, r = Raise (GoogleAPIError msg).
Proof. destruct r as [a|[msg|cls]]; simpl; try discriminate; eauto. Qed.

Lemma analyze_exhausted c ct w :
  all_attempts_fail c ct w ->
  exists w',
    fst (analyze_medical_report c ct w)
    = match fst (fallback_analysis c ct w') with
      | Ret r => Ret (Some r)
      | Raise e => Raise e
      end.
Proof.
  intros Hfail.
  destruct (is_api_error_inv _ (Hfail 0 ltac:(unfold MAX_RETRIES; lia))) as [m0 E0].
  destruct (is_api_error_inv _ (Hfail 1 ltac:(unfold MAX_RETRIES; lia))) as [m1 E1].
  destruct (is_api_error_inv _ (Hfail 2 ltac:(unfold MAX_RETRIES; lia))) as [m2 E2].
  rewrite Nat.add_0_r in E0. rewrite Nat.add_1_r in E1.
  replace (model_calls w + 2) with (S (S (model_calls w))) in E2 by lia.
  unfold analyze_medical_report, attempt_body. simpl. run.
  rewrite E0. simpl. rewrite E1. simpl. rewrite E2. simpl.
  match goal with
  | |- context [fallback_analysis c ct ?w1] => exists w1
  end.
  destruct (fallback_analysis c ct _) as [[r|e] w'']; reflexivity.
Qed.

Lemma fallback_text_word_count n :
  contains (fallback_text n) (lit "Word Count: " ++ str_of_nat n ++ lit " words").
Proof.
  exists (nl ++ lit "        Fallback Analysis:" ++ nl
          ++ lit "        - Document Type: Text-based medical report" ++ nl
          ++ lit "        - "),
         (nl ++ lit "        - Unable to analyze content in detail due to AI issues. Please consult a doctor manually."
          ++ nl ++ lit "        ").
  unfold fallback_text. rewrite <- !app_assoc. vm_compute. reflexivity.
Qed.

Lemma fallback_text_not_analyzed n :
  contains (fallback_text n)
    (lit "Unable to analyze content in detail due to AI issues. Please consult a doctor manually.").
Proof.
  exists (nl ++ lit "        Fallback Analysis:" ++ nl
          ++ lit "        - Document Type: Text-based medical report" ++ nl
          ++ lit "        - Word Count: " ++ str_of_nat n ++ lit " words"
          ++ nl ++ lit "        - "),
         (nl ++ lit "        ").
  unfold fallback_text. rewrite <- !app_assoc. vm_compute. reflexivity.
Qed.

Lemma fallback_analysis_image c w :
  fst (fallback_analysis c (lit "image") w)
  = Ret (lit "Unable to analyze the image due to API issues. Please try again later.").
Proof.
  unfold fallback_analysis. run.
  destruct (decide (lit "image" = lit "image")); [reflexivity | congruence].
Qed.

Lemma fallback_analysis_text s ct w :
  ct <> lit "image" ->
  fst (fallback_analysis (CText s) ct w) = Ret (fallback_text (length (split s))).
Proof.
  intros Hct. unfold fallback_analysis. run.
  destruct (decide (ct = lit "image")); [congruence | reflexivity].
Qed.

(** C2.  When all 3 attempts fail with an API error: for content type
    "image" the result is exactly the fixed "Unable to analyze the image"
    string; for a text whose whitespace-split word count is [W] (and any
    content type other than "image", such as the caller's "text") the result
    contains "Word Count: ", the decimal numeral of [W] (digits that read
    back as [W], without a leading zero) and " words", and it contains the
    sentence saying that the content was not analyzed in detail. *)
Theorem analyze_medical_report_exhausted (c : content) (ct : str) (w : world) :
  all_attempts_fail c ct w ->
  (ct = lit "image" ->
   fst (analyze_medical_report c ct w)
   = Ret (Some (lit "Unable to analyze the image due to API issues. Please try again later.")))
  /\ (forall s, c = CText s -> ct <> lit "image" ->
      exists r digits,
        fst (analyze_medical_report c ct w) = Ret (Some r)
        /\ read_decimal digits = Some (length (split s))
        /\ contains r (lit "Word Count: " ++ digits ++ lit " words")
        /\ contains r (lit "Unable to analyze content in detail due to AI issues. Please consult a doctor manually.")).
Proof.
  intros Hfail. destruct (analyze_exhausted c ct w Hfail) as [w' E].
  split.
  - intros ->. rewrite E, fallback_analysis_image. reflexivity.
  - intros s -> Hct.
    exists (fallback_text (length (split s))), (str_of_nat (length (split s))).
    rewrite E, fallback_analysis_text by assumption.
    split; [reflexivity|].
    split; [apply read_decimal_str_of_nat|].
    split; [apply fallback_text_word_count | apply fallback_text_not_analyzed].
Qed.

(** ** Page-by-page extraction *)

Lemma extract_pages_texts (ts : list str) :
  forall (pages : list page) (text : str) (w : world),
    extract_text <$> pages = Ret <$> ts ->
    extract_pages text pages w = (Ret (text ++ concat ts), w).
Proof.
  induction ts as [|t ts IH]; intros [|p pages] text w E;
    try discriminate; simpl.
  - by rewrite app_nil_r.
  - injection E as Hp Hrest. rewrite run_bind. unfold lift.
    rewrite Hp, (IH pages (text ++ t) w Hrest).
    by rewrite <- app_assoc.
Qed.

(** C3.  For a PDF whose reader yields pages with extractable texts
    [t1 .. tN], [extract_text_from_pdf] returns their concatenation in page
    order and changes nothing else; a page whose text is empty contributes
    nothing, and no error is raised. *)
Theorem extract_text_from_pdf_concat
  (pdf_file : bytes) (pages : list page) (ts : list str) (w : world) :
  pdf_reader w pdf_file = Ret pages ->
  extract_text <$> pages = Ret <$> ts ->
  extract_text_from_pdf pdf_file w = (Ret (concat ts), w)
  /\ (forall before after,
        ts = before ++ [] :: after ->
        extract_text_from_pdf pdf_file w
        = (Ret (concat before ++ concat after), w)).
Proof.
  intros Hreader Htexts.
  assert (E : extract_text_from_pdf pdf_file w = (Ret (concat ts), w)).
  { unfold extract_text_from_pdf. run. rewrite Hreader.
    by rewrite (extract_pages_texts ts pages [] w Htexts). }
  split; [exact E|].
  intros before after ->. rewrite E, concat_app. reflexivity.
Qed.

(** ** Doctor Finder *)

(** The world after one [requests.get(url)]. *)
Definition after_request (url : str) (w : world) : world :=
  with_trace (trace w ++ [EvHttpGet url]) (with_http_calls (S (http_calls w)) w).

(** What the list comprehension yields on one entry, as a pure function. *)
Definition format_doc_with (render : json -> str) (doc : json) : result str :=
  match subscript doc (lit "name") with
  | Ret name =>
      match subscript doc (lit "formatted_address") with
      | Ret address =>
          Ret (format_json render name ++ lit " - " ++ format_json render address)
      | Raise e => Raise e
      end
  | Raise e => Raise e
  end.

Lemma format_doc_pure doc w :
  format_doc doc w = (format_doc_with (py_str w) doc, w).
Proof.
  unfold format_doc, format_doc_with. run.
  destruct (subscript doc (lit "name")); simpl; [|reflexivity].
  destruct (subscript doc (lit "formatted_address")); reflexivity.
Qed.

Lemma mapM_format_doc_frame docs w : snd (mapM format_doc docs w) = w.
Proof.
  induction docs as [|d docs IH]; simpl; [reflexivity|].
  rewrite run_bind, format_doc_pure.
  destruct (format_doc_with (py_str w) d); simpl; [|reflexivity].
  rewrite run_bind. destruct (mapM format_doc docs w) as [[k|e] w'];
    simpl in *; exact IH.
Qed.

Lemma mapM_format_doc_render docs w w' :
  py_str w = py_str w' ->
  fst (mapM format_doc docs w) = fst (mapM format_doc docs w').
Proof.
  intros Hr. induction docs as [|d docs IH]; simpl; [reflexivity|].
  rewrite !run_bind, !format_doc_pure, <- Hr.
  destruct (format_doc_with (py_str w) d); simpl; [|reflexivity].
  rewrite !run_bind.
  destruct (mapM format_doc docs w) as [[k|e] w1],
           (mapM format_doc docs w') as [[k'|e'] w1'];
    simpl in *; congruence.
Qed.

Lemma mapM_format_doc_length docs w out :
  fst (mapM format_doc docs w) = Ret out -> length out = length docs.
Proof.
  revert out. induction docs as [|d docs IH]; simpl; intros out.
  - intros [= <-]. reflexivity.
  - rewrite run_bind, format_doc_pure.
    destruct (format_doc_with (py_str w) d); simpl; [|discriminate].
    rewrite run_bind.
    destruct (mapM format_doc docs w) as [[k|e] w1]; simpl in *;
      [|discriminate].
    intros [= <-]. simpl. f_equal. by apply IH.
Qed.

(** An entry that is an object with both fields. *)
Definition has_fields (doc : json) (name address : json) : Prop :=
  exists fields,
    doc = JObj fields
    /\ fields !! lit "name" = Some name
    /\ fields !! lit "formatted_address" = Some address.

Lemma mapM_format_doc_fields docs (fields : list (json * json)) w :
  Forall2 (fun doc na => has_fields doc na.1 na.2) docs fields ->
  mapM format_doc docs w
  = (Ret ((fun na => format_json (py_str w) na.1 ++ lit " - "
                     ++ format_json (py_str w) na.2) <$> fields), w).
Proof.
  induction 1 as [|d [n a] docs fields (o & -> & Hn & Ha) _ IH]; simpl;
    [reflexivity|].
  rewrite run_bind, format_doc_pure. unfold format_doc_with. simpl in *.
  rewrite Hn, Ha. simpl. rewrite run_bind, IH. reflexivity.
Qed.

(** The two ways [get_doctors] can go. *)
Lemma get_doctors_no_key location specialization w :
  truthy (google_maps_api_key w) = false ->
  get_doctors location specialization w = (Ret [no_key_message], w).
Proof. intros Hkey. unfold get_doctors. run. rewrite Hkey. reflexivity. Qed.

Lemma get_doctors_request location specialization w :
  truthy (google_maps_api_key w) = true ->
  let url := places_url (google_maps_api_key w) location specialization in
  let w1 := after_request url w in
  get_doctors location specialization w
  = match places_api w (http_calls w) url with
    | Ret response =>
        if (status_code response =? 200)%Z
        then
          match response_json response with
          | Ret body =>
              match get_results body with
              | Ret results =>
                  match first_five results with
                  | Ret docs => mapM format_doc docs w1
                  | Raise e => (Raise e, w1)
                  end
              | Raise e => (Raise e, w1)
              end
          | Raise e => (Raise e, w1)
          end
        else (Ret [no_doctors_message], w1)
    | Raise e => (Raise e, w1)
    end.
Proof.
  intros Hkey url w1. unfold get_doctors. run. rewrite Hkey. simpl.
  fold url. fold (after_request url w). fold w1.
  destruct (places_api w (http_calls w) url) as [response|e]; [|reflexivity].
  destruct (status_code response =? 200)%Z; [|reflexivity].
  destruct (response_json response) as [body|e]; [|reflexivity].
  destruct (get_results body) as [results|e]; [|reflexivity].
  destruct (first_five results) as [docs|e]; reflexivity.
Qed.

(** C4.  With a credential configured and an HTTP 200 response whose body
    has a [results] array of more than 5 entries, the first 5 of which are
    objects with [name] and [formatted_address], [get_doctors] returns
    exactly 5 strings "{name} - {formatted_address}", in the order of the
    first 5 entries (a field that is a string is formatted as itself). *)
Theorem get_doctors_first_five
  (location specialization : str) (w : world) (resp : response)
  (body : gmap str json) (items : list json) (fields : list (json * json)) :
  truthy (google_maps_api_key w) = true ->
  places_api w (http_calls w)
    (places_url (google_maps_api_key w) location specialization) = Ret resp ->
  status_code resp = 200%Z ->
  response_json resp = Ret (JObj body) ->
  body !! lit "results" = Some (JArr items) ->
  5 < length items ->
  Forall2 (fun doc na => has_fields doc na.1 na.2) (take 5 items) fields ->
  fst (get_doctors location specialization w)
  = Ret ((fun na => format_json (py_str w) na.1 ++ lit " - "
                    ++ format_json (py_str w) na.2) <$> fields)
  /\ length fields = 5.
Proof.
  intros Hkey Hresp Hstatus Hjson Hresults Hlen Hfields.
  rewrite get_doctors_request by assumption. cbv zeta.
  rewrite Hresp, Hstatus, Hjson. simpl. rewrite Hresults. simpl.
  rewrite (mapM_format_doc_fields _ fields) by assumption. simpl.
  split; [reflexivity|].
  apply Forall2_length in Hfields. rewrite length_take in Hfields. lia.
Qed.

(** C5, as the code has it.  With a credential configured and an HTTP 200
    response whose JSON body is an object without a [results] field,
    [get_doctors] returns the empty sequence, after one request. *)
Theorem get_doctors_missing_results
  (location specialization : str) (w : world) (resp : response)
  (body : gmap str json) :
  truthy (google_maps_api_key w) = true ->
  places_api w (http_calls w)
    (places_url (google_maps_api_key w) location specialization) = Ret resp ->
  status_code resp = 200%Z ->
  response_json resp = Ret (JObj body) ->
  body !! lit "results" = None ->
  get_doctors location specialization w
  = (Ret [],
     after_request (places_url (google_maps_api_key w) location specialization) w).
Proof.
  intros Hkey Hresp Hstatus Hjson Hresults.
  rewrite get_doctors_request by assumption. cbv zeta.
  rewrite Hresp, Hstatus, Hjson. simpl. rewrite Hresults. reflexivity.
Qed.

Lemma get_doctors_other_status location specialization w resp :
  truthy (google_maps_api_key w) = true ->
  places_api w (http_calls w)
    (places_url (google_maps_api_key w) location specialization) = Ret resp ->
  status_code resp <> 200%Z ->
  get_doctors location specialization w
  = (Ret [no_doctors_message],
     after_request (places_url (google_maps_api_key w) location specialization) w).
Proof.
  intros Hkey Hresp Hstatus.
  rewrite get_doctors_request by assumption. cbv zeta.
  rewrite Hresp. apply Z.eqb_neq in Hstatus. by rewrite Hstatus.
Qed.

(** C6.  With a credential configured, a response with any status other
    than 200 makes [get_doctors] return exactly the one-element sequence
    with the "no doctors found" string, whatever the body; exactly one
    request is made. *)
Theorem get_doctors_non_200
  (location specialization : str) (w : world) (resp : response) :
  truthy (google_maps_api_key w) = true ->
  places_api w (http_calls w)
    (places_url (google_maps_api_key w) location specialization) = Ret resp ->
  status_code resp <> 200%Z ->
  get_doctors location specialization w
  = (Ret [no_doctors_message],
     after_request (places_url (google_maps_api_key w) location specialization) w)
  /\ no_doctors_message = lit "No doctors found or API issue occurred.".
Proof.
  intros Hkey Hresp Hstatus.
  split; [by apply get_doctors_other_status with resp | reflexivity].
Qed.

(** C7.  Without a configured places credential ([None] or the empty
    string), [get_doctors] returns the one-element sequence with the
    explanatory string and leaves the world as it was: no request is made. *)
Theorem get_doctors_without_credential
  (location specialization : str) (w : world) :
  truthy (google_maps_api_key w) = false ->
  get_doctors location specialization w = (Ret [no_key_message], w)
  /\ no_key_message
     = lit "Google Maps API Key not found. Cannot fetch doctor recommendations.".
Proof.
  intros Hkey. split; [by apply get_doctors_no_key | reflexivity].
Qed.

(** ** Determinism and the length bound *)

Lemma get_doctors_world location specialization w :
  snd (get_doctors location specialization w)
  = if truthy (google_maps_api_key w)
    then after_request
           (places_url (google_maps_api_key w) location specialization) w
    else w.
Proof.
  destruct (truthy (google_maps_api_key w)) eqn:Hkey.
  - rewrite get_doctors_request by assumption. cbv zeta.
    destruct (places_api _ _ _) as [resp|e]; [|reflexivity].
    destruct (status_code resp =? 200)%Z; [|reflexivity].
    destruct (response_json resp) as [body|e]; [|reflexivity].
    destruct (get_results body) as [results|e]; [|reflexivity].
    destruct (first_five results) as [docs|e]; [|reflexivity].
    apply mapM_format_doc_frame.
  - by rewrite get_doctors_no_key.
Qed.

Lemma get_doctors_deterministic location specialization w w' :
  google_maps_api_key w' = google_maps_api_key w ->
  py_str w' = py_str w ->
  places_api w' (http_calls w')
    (places_url (google_maps_api_key w) location specialization)
  = places_api w (http_calls w)
      (places_url (google_maps_api_key w) location specialization) ->
  fst (get_doctors location specialization w')
  = fst (get_doctors location specialization w).
Proof.
  intros Hkey Hrender Hresp.
  destruct (truthy (google_maps_api_key w)) eqn:Ht.
  - rewrite !get_doctors_request by congruence. cbv zeta.
    rewrite Hkey, Hresp. clear Hresp.
    destruct (places_api w _ _) as [resp|e]; [|reflexivity].
    destruct (status_code resp =? 200)%Z; [|reflexivity].
    destruct (response_json resp) as [body|e]; [|reflexivity].
    destruct (get_results body) as [results|e]; [|reflexivity].
    destruct (first_five results) as [docs|e]; [|reflexivity].
    apply mapM_format_doc_render. exact Hrender.
  - rewrite !get_doctors_no_key by congruence. reflexivity.
Qed.

(** C8.  Against a backend that answers the next request as it answers
    this one, a second call of [get_doctors] with the same arguments returns
    what the first returned; a call changes nothing of the world but the
    request counter and the trace; and the result is the same in any world
    with the same credential, the same formatting and the same response. *)
Theorem get_doctors_idempotent (location specialization : str) (w : world) :
  let url := places_url (google_maps_api_key w) location specialization in
  places_api w (S (http_calls w)) url = places_api w (http_calls w) url ->
  let first := get_doctors location specialization w in
  let second := get_doctors location specialization (snd first) in
  fst second = fst first
  /\ snd first
     = with_trace (trace (snd first))
         (with_http_calls (http_calls (snd first)) w)
  /\ (forall w',
        google_maps_api_key w' = google_maps_api_key w ->
        py_str w' = py_str w ->
        places_api w' (http_calls w') url = places_api w (http_calls w) url ->
        fst (get_doctors location specialization w') = fst first).
Proof.
  intros url Hstable first second. subst first second.
  rewrite !get_doctors_world. fold url.
  split; [|split].
  - destruct (truthy (google_maps_api_key w)); [|reflexivity].
    apply get_doctors_deterministic; try reflexivity.
    fold url. exact Hstable.
  - destruct (truthy (google_maps_api_key w)); destruct w; reflexivity.
  - intros w' Hkey Hrender Hresp.
    by apply get_doctors_deterministic.
Qed.

Lemma first_five_length results docs :
  first_five results = Ret docs -> length docs <= 5.
Proof.
  destruct results; simpl; intros [= <-];
    rewrite ?length_fmap, length_take; lia.
Qed.

(** C10.  Whenever [get_doctors] returns, the sequence has at most 5
    elements; it does return, one element, when the credential is missing
    or the status is not 200; and an HTTP 200 response whose body is an
    object with an empty or absent [results] array yields the empty
    sequence, not an error. *)
Theorem get_doctors_at_most_five (location specialization : str) (w : world) :
  let url := places_url (google_maps_api_key w) location specialization in
  (forall out,
      fst (get_doctors location specialization w) = Ret out -> length out <= 5)
  /\ (truthy (google_maps_api_key w) = false
      \/ (exists resp, places_api w (http_calls w) url = Ret resp
                       /\ status_code resp <> 200%Z) ->
      exists out,
        fst (get_doctors location specialization w) = Ret out /\ length out = 1)
  /\ (forall resp body,
        truthy (google_maps_api_key w) = true ->
        places_api w (http_calls w) url = Ret resp ->
        status_code resp = 200%Z ->
        response_json resp = Ret (JObj body) ->
        body !! lit "results" = None \/ body !! lit "results" = Some (JArr []) ->
        fst (get_doctors location specialization w) = Ret []).
Proof.
  intros url. split; [|split].
  - intros out.
    destruct (truthy (google_maps_api_key w)) eqn:Hkey.
    + rewrite get_doctors_request by assumption. cbv zeta. fold url.
      destruct (places_api _ _ _) as [resp|e]; [|discriminate].
      destruct (status_code resp =? 200)%Z; [|intros [= <-]; simpl; lia].
      destruct (response_json resp) as [body|e]; [|discriminate].
      destruct (get_results body) as [results|e]; [|discriminate].
      destruct (first_five results) as [docs|e] eqn:Hdocs; [|discriminate].
      intros Hout. apply mapM_format_doc_length in Hout. rewrite Hout.
      by apply first_five_length with results.
    + rewrite get_doctors_no_key by assumption. intros [= <-]. simpl. lia.
  - intros [Hkey|(resp & Hresp & Hstatus)].
    + exists [no_key_message]. by rewrite get_doctors_no_key.
    + destruct (truthy (google_maps_api_key w)) eqn:Hkey.
      * exists [no_doctors_message].
        by rewrite (get_doctors_other_status location specialization w resp).
      * exists [no_key_message]. by rewrite get_doctors_no_key.
  - intros resp body Hkey Hresp Hstatus Hjson Hresults.
    rewrite get_doctors_request by assumption. cbv zeta. fold url.
    rewrite Hresp, Hstatus, Hjson. simpl.
    destruct Hresults as [-> | ->]; reflexivity.
Qed.

(** ** Temporary files of one run of the script *)

(** A computation that leaves the temporary files as they are, whatever
    its outcome. *)
Definition keeps_files {A} (m : M A) : Prop :=
  forall w, tmp_files (snd (m w)) = tmp_files w.

Lemma keeps_files_ret {A} (a : A) : keeps_files (mret a : M A).
Proof. intros w. reflexivity. Qed.

Lemma keeps_files_bind {A B} (m : M A) (k : A -> M B) :
  keeps_files m -> (forall a, keeps_files (k a)) -> keeps_files (m ≫= k).
Proof.
  intros Hm Hk w. rewrite run_bind. specialize (Hm w).
  destruct (m w) as [[a|e] w']; simpl in *; [|exact Hm].
  rewrite Hk. exact Hm.
Qed.

Lemma keeps_files_emit e : keeps_files (emit e).
Proof. intros w. reflexivity. Qed.

Lemma keeps_files_lift {A} (r : result A) : keeps_files (lift r).
Proof. intros w. reflexivity. Qed.

Lemma keeps_files_ask {A} (f : world -> A) : keeps_files (ask f).
Proof. intros w. reflexivity. Qed.

Lemma keeps_files_call {A} (f : world -> result A) : keeps_files (call f).
Proof. intros w. reflexivity. Qed.

Lemma keeps_files_generate_text p : keeps_files (generate_text p).
Proof. intros w. reflexivity. Qed.

Lemma keeps_files_requests_get url : keeps_files (requests_get url).
Proof. intros w. reflexivity. Qed.

Lemma keeps_files_read_file path : keeps_files (read_file path).
Proof. intros w. unfold read_file. by destruct (tmp_files w !! path). Qed.

Lemma keeps_files_try {A} (body : M A) (handler : str -> M A) :
  keeps_files body -> (forall msg, keeps_files (handler msg)) ->
  keeps_files (try_except_GoogleAPIError body handler).
Proof.
  intros Hb Hh w. unfold try_except_GoogleAPIError. specialize (Hb w).
  destruct (body w) as [[a|[msg|cls]] w']; simpl in *; try exact Hb.
  rewrite Hh. exact Hb.
Qed.

Lemma keeps_files_for_range {A} (body : nat -> M (option A)) range :
  (forall i, keeps_files (body i)) -> keeps_files (for_range body range).
Proof.
  intros Hbody. induction range as [|i range IH]; simpl.
  - apply keeps_files_ret.
  - apply keeps_files_bind; [apply Hbody|].
    intros [v|]; [apply keeps_files_ret | exact IH].
Qed.

Lemma keeps_files_mapM {A B} (f : A -> M B) (l : list A) :
  (forall a, keeps_files (f a)) -> keeps_files (mapM f l).
Proof.
  intros Hf. induction l as [|a l IH]; simpl.
  - apply keeps_files_ret.
  - apply keeps_files_bind; [apply Hf|]. intros b.
    apply keeps_files_bind; [exact IH|]. intros k. apply keeps_files_ret.
Qed.

Create HintDb files discriminated.

#[export] Hint Resolve keeps_files_ret keeps_files_emit keeps_files_lift
  keeps_files_ask keeps_files_call keeps_files_generate_text
  keeps_files_requests_get keeps_files_read_file : files.

(** Decomposes a frame goal along the structure of the computation. *)
Ltac keeps :=
  repeat first
    [ solve [eauto 2 with files]
    | match goal with |- forall _, _ => intro end
    | apply keeps_files_bind
    | apply keeps_files_try
    | apply keeps_files_for_range
    | apply keeps_files_mapM
    | match goal with
      | |- keeps_files (if ?b then _ else _) => destruct b
      | |- keeps_files (match ?x with _ => _ end) => destruct x
      end ].

Lemma keeps_files_fallback_analysis c ct : keeps_files (fallback_analysis c ct).
Proof. unfold fallback_analysis, st_warning. keeps. Qed.

Lemma keeps_files_analyze c ct : keeps_files (analyze_medical_report c ct).
Proof.
  unfold analyze_medical_report, attempt_body, st_warning, st_error, time_sleep.
  pose proof (keeps_files_fallback_analysis c ct). keeps.
Qed.

Lemma keeps_files_get_doctors location specialization :
  keeps_files (get_doctors location specialization).
Proof. unfold get_doctors, format_doc. keeps. Qed.

Lemma keeps_files_extract_pages pages : forall text,
  keeps_files (extract_pages text pages).
Proof. induction pages as [|p pages IH]; intros text; simpl; keeps. Qed.

Lemma keeps_files_extract_text_from_pdf pdf_file :
  keeps_files (extract_text_from_pdf pdf_file).
Proof.
  unfold extract_text_from_pdf.
  pose proof keeps_files_extract_pages. keeps.
Qed.

(** A computation that, started with the file [path] in place, deletes it
    when it returns and leaves the files as they are when it raises. *)
Definition closes {A} (path : nat) (m : M A) : Prop :=
  forall w, is_Some (tmp_files w !! path) ->
    match m w with
    | (Ret _, w') => tmp_files w' = delete path (tmp_files w)
    | (Raise _, w') => tmp_files w' = tmp_files w
    end.

Lemma closes_os_unlink path : closes path (os_unlink path).
Proof.
  intros w [f Hf]. unfold os_unlink. rewrite Hf. reflexivity.
Qed.

Lemma closes_bind {A B} path (m : M A) (k : A -> M B) :
  keeps_files m -> (forall a, closes path (k a)) -> closes path (m ≫= k).
Proof.
  intros Hm Hk w Hf. rewrite run_bind. specialize (Hm w).
  destruct (m w) as [[a|e] w']; simpl in *; [|exact Hm].
  specialize (Hk a w'). rewrite Hm in Hk. exact (Hk Hf).
Qed.

(** The part of the image branch that runs once the temporary file is
    written, and the same for the PDF branch. *)
Lemma closes_image_branch ui path :
  closes path
    (image ← Image_open path;
     st_image image;;
     (if ui_button ui
      then
        analysis ← analyze_medical_report (CImage image) (lit "image");
        st_subheader (lit "Report Analysis Results:");;
        st_write analysis;;
        match ui_location ui with
        | _ :: _ =>
            doctors ← get_doctors (ui_location ui) default_specialization;
            st_subheader (lit "Recommended Doctors:");;
            st_write (Some (join nl doctors))
        | [] => mret tt
        end
      else mret tt);;
     os_unlink path).
Proof.
  pose proof keeps_files_analyze. pose proof keeps_files_get_doctors.
  apply closes_bind; [unfold Image_open; keeps|]. intros image.
  apply closes_bind; [unfold st_image; keeps|]. intros _.
  apply closes_bind; [|intros _; apply closes_os_unlink].
  unfold st_subheader, st_write. keeps.
Qed.

Lemma closes_pdf_branch ui path :
  closes path
    (pdf_file ← read_file path;
     pdf_text ← extract_text_from_pdf pdf_file;
     analysis ← analyze_medical_report (CText pdf_text) (lit "text");
     st_subheader (lit "Report Analysis Results:");;
     st_write analysis;;
     match ui_location ui with
     | _ :: _ =>
         doctors ← get_doctors (ui_location ui) default_specialization;
         st_subheader (lit "Recommended Doctors:");;
         st_write (Some (join nl doctors))
     | [] => mret tt
     end;;
     os_unlink path).
Proof.
  pose proof keeps_files_analyze. pose proof keeps_files_get_doctors.
  pose proof keeps_files_extract_text_from_pdf.
  apply closes_bind; [keeps|]. intros pdf_file.
  apply closes_bind; [keeps|]. intros pdf_text.
  apply closes_bind; [keeps|]. intros analysis.
  apply closes_bind; [unfold st_subheader; keeps|]. intros _.
  apply closes_bind; [unfold st_write; keeps|]. intros _.
  apply closes_bind; [|intros _; apply closes_os_unlink].
  unfold st_subheader, st_write. keeps.
Qed.

(** What a computation may do to the temporary files: when it returns they
    are as before; when it raises they are as before or there is one file
    more, under the name [NamedTemporaryFile] picked. *)
Definition scoped {A} (m : M A) : Prop :=
  forall w,
    match m w with
    | (Ret _, w') => tmp_files w' = tmp_files w
    | (Raise _, w') =>
        tmp_files w' = tmp_files w
        \/ exists suffix data,
             tmp_files w'
             = <[fresh (dom (tmp_files w)) := TmpFile suffix data]> (tmp_files w)
    end.

Lemma scoped_keeps {A} (m : M A) : keeps_files m -> scoped m.
Proof.
  intros Hm w. specialize (Hm w).
  destruct (m w) as [[a|e] w']; simpl in *; auto.
Qed.

Lemma scoped_bind {A B} (m : M A) (k : A -> M B) :
  keeps_files m -> (forall a, scoped (k a)) -> scoped (m ≫= k).
Proof.
  intros Hm Hk w. rewrite run_bind. specialize (Hm w).
  destruct (m w) as [[a|e] w']; simpl in *; [|auto].
  specialize (Hk a w'). rewrite Hm in Hk. exact Hk.
Qed.

(** Writing a temporary file and then running a computation that closes
    it: on return the files are as before, on a fault the new file stays. *)
Lemma tmp_file_scope {A} suffix data (rest : nat -> M A) w :
  (forall path, closes path (rest path)) ->
  match (path ← NamedTemporaryFile_write suffix data; rest path) w with
  | (Ret _, w') => tmp_files w' = tmp_files w
  | (Raise _, w') =>
      tmp_files w'
      = <[fresh (dom (tmp_files w)) := TmpFile suffix data]> (tmp_files w)
  end.
Proof.
  intros Hrest. rewrite run_bind. unfold NamedTemporaryFile_write.
  set (name := fresh (dom (tmp_files w))).
  set (w1 := with_tmp_files _ w).
  assert (Hfresh : tmp_files w !! name = None)
    by (apply not_elem_of_dom, is_fresh).
  specialize (Hrest name w1). simpl in Hrest.
  rewrite lookup_insert_eq in Hrest. specialize (Hrest (mk_is_Some _ _ eq_refl)).
  destruct (rest name w1) as [[a|e] w']; [|exact Hrest].
  rewrite Hrest. by apply delete_insert_id.
Qed.

Lemma scoped_tmp_file {A} suffix data (rest : nat -> M A) :
  (forall path, closes path (rest path)) ->
  scoped (path ← NamedTemporaryFile_write suffix data; rest path).
Proof.
  intros Hrest w. pose proof (tmp_file_scope suffix data rest w Hrest) as H.
  destruct ((NamedTemporaryFile_write suffix data ≫= rest) w) as [[a|e] w'];
    eauto.
Qed.

(** One run of the script: a run that returns leaves the temporary files as
    they were; a run that raises leaves them as they were or with one file
    more. *)
Lemma main_files ui : scoped (main ui).
Proof.
  unfold main. cbv zeta.
  apply scoped_bind; [unfold st_title; keeps|]. intros _.
  apply scoped_bind; [unfold st_write; keeps|]. intros _.
  destruct (decide (ui_file_type ui = lit "Image")).
  - destruct (ui_uploaded_file ui) as [uploaded|];
      [|apply scoped_keeps; keeps].
    apply scoped_tmp_file. intros path. apply closes_image_branch.
  - destruct (ui_uploaded_file ui) as [uploaded|];
      [|apply scoped_keeps; keeps].
    apply scoped_bind; [unfold st_write; keeps|]. intros _.
    destruct (ui_button ui); [|apply scoped_keeps; keeps].
    apply scoped_tmp_file. intros path. apply closes_pdf_branch.
Qed.

(** X1.  A run of the script that returns has deleted the temporary file
    it made: the temporary files are as they were before the run. *)
Lemma main_normal_exit_cleans ui w :
  fst (main ui w) = Ret tt -> tmp_files (snd (main ui w)) = tmp_files w.
Proof.
  pose proof (main_files ui w) as H.
  destruct (main ui w) as [[[]|e] w']; simpl; [auto | discriminate].
Qed.

(** X2.  In the PDF branch a fault of the reader ends the run with that
    fault and leaves the temporary file behind: [os.unlink] is only reached
    when nothing before it raised. *)
Lemma main_pdf_fault_keeps_file ui w data e :
  ui_file_type ui <> lit "Image" ->
  ui_uploaded_file ui = Some data ->
  ui_button ui = true ->
  pdf_reader w data = Raise e ->
  fst (main ui w) = Raise e
  /\ tmp_files (snd (main ui w))
     = <[fresh (dom (tmp_files w)) := TmpFile (lit ".pdf") data]> (tmp_files w).
Proof.
  intros Htype Hup Hbutton Hreader.
  unfold main, extract_text_from_pdf, NamedTemporaryFile_write, read_file.
  cbv zeta. run.
  destruct (decide (ui_file_type ui = lit "Image")); [done|].
  rewrite Hup, Hbutton. simpl. rewrite lookup_insert_eq. simpl.
  rewrite Hreader. simpl. done.
Qed.

(** * Concrete runs *)

Definition sample_image : image :=
  Image [Byte.x89; Byte.x50; Byte.x4e; Byte.x47] (lit "<PIL.PngImagePlugin.PngImageFile>") (Ret 3).

(** A world whose remote model answers every call with an API error, whose
    places backend is unreachable and in which no credential is set. *)
Definition world_down : world :=
  World None
    (fun _ _ => Raise (GoogleAPIError (lit "503 Service Unavailable")))
    0
    (fun _ _ => Raise (PyError "ConnectionError"))
    0
    (fun _ => lit "None")
    (fun _ => Ret sample_image)
    (fun _ => Raise (PyError "PdfReadError"))
    ∅ [].

(** The places backend of a world with a credential and a fixed answer. *)
Definition world_of_response (resp : response) : world :=
  World (Some (lit "KEY"))
    (fun _ _ => Ret (lit "No issues detected."))
    0
    (fun _ _ => Ret resp)
    0
    (fun _ => lit "None")
    (fun _ => Ret sample_image)
    (fun _ => Ret [Page (Ret (lit "Hb 9.1 ")); Page (Ret []); Page (Ret (lit "low"))])
    ∅ [].

Definition entry (name address : string) : json :=
  JObj {[ lit "name" := JStr (lit name);
          lit "formatted_address" := JStr (lit address) ]}.

Definition seven_results : list json :=
  [entry "Dr. A" "Addr A"; entry "Dr. B" "Addr B"; entry "Dr. C" "Addr C";
   entry "Dr. D" "Addr D"; entry "Dr. E" "Addr E"; entry "Dr. F" "Addr F";
   entry "Dr. G" "Addr G"].

Definition seven_body : gmap str json :=
  {[ lit "results" := JArr seven_results; lit "status" := JStr (lit "OK") ]}.

Definition denied_body : gmap str json :=
  {[ lit "status" := JStr (lit "REQUEST_DENIED") ]}.

Example split_words :
  split (lit "  Hb 9.1  low ") = [lit "Hb"; lit "9.1"; lit "low"].
Proof. reflexivity. Qed.

Example seven_body_results : seven_body !! lit "results" = Some (JArr seven_results).
Proof. vm_compute. reflexivity. Qed.

Example denied_body_results : denied_body !! lit "results" = None.
Proof. vm_compute. reflexivity. Qed.

Example fresh_name_empty : fresh (dom (∅ : gmap nat tmp_file)) = 0.
Proof. vm_compute. reflexivity. Qed.

(** C2 at a concrete input: a three-word text against a model that is down;
    the result reads "Word Count: 3 words". *)
Lemma analyze_medical_report_exhausted_witness :
  all_attempts_fail (CText (lit "Hb 9.1 low")) (lit "text") world_down
  /\ exists r,
       fst (analyze_medical_report (CText (lit "Hb 9.1 low")) (lit "text")
              world_down) = Ret (Some r)
       /\ contains r (lit "Word Count: 3 words")
       /\ contains r (lit "Unable to analyze content in detail due to AI issues. Please consult a doctor manually.").
Proof.
  assert (Hfail : all_attempts_fail (CText (lit "Hb 9.1 low")) (lit "text")
                    world_down)
    by (intros i Hi; reflexivity).
  split; [exact Hfail|].
  destruct (analyze_medical_report_exhausted _ _ _ Hfail) as [_ Htext].
  destruct (Htext (lit "Hb 9.1 low") eq_refl)
    as (r & digits & Hres & Hdigits & Hcount & Hnot).
  { vm_compute. discriminate. }
  apply read_decimal_inv in Hdigits. subst digits.
  exists r. split; [exact Hres|]. split; [exact Hcount | exact Hnot].
Defined.

(** C3 at a concrete input: three pages, the middle one without text. *)
Lemma extract_text_from_pdf_concat_witness :
  extract_text_from_pdf [Byte.x25; Byte.x50; Byte.x44; Byte.x46]
    (world_of_response (Response 200 (Ret JNull)))
  = (Ret (lit "Hb 9.1 low"), world_of_response (Response 200 (Ret JNull))).
Proof.
  refine (proj1 (extract_text_from_pdf_concat
                   [Byte.x25; Byte.x50; Byte.x44; Byte.x46]
                   [Page (Ret (lit "Hb 9.1 ")); Page (Ret []); Page (Ret (lit "low"))]
                   [lit "Hb 9.1 "; []; lit "low"]
                   (world_of_response (Response 200 (Ret JNull)))
                   eq_refl eq_refl)).
Defined.

(** C4 at a concrete input: seven entries, Dr. A to Dr. G. *)
Lemma get_doctors_first_five_witness :
  fst (get_doctors (lit "Pune") default_specialization
         (world_of_response (Response 200 (Ret (JObj seven_body)))))
  = Ret [lit "Dr. A - Addr A"; lit "Dr. B - Addr B"; lit "Dr. C - Addr C";
         lit "Dr. D - Addr D"; lit "Dr. E - Addr E"].
Proof.
  refine (proj1 (get_doctors_first_five (lit "Pune") default_specialization
            (world_of_response (Response 200 (Ret (JObj seven_body))))
            (Response 200 (Ret (JObj seven_body))) seven_body seven_results
            [(JStr (lit "Dr. A"), JStr (lit "Addr A"));
             (JStr (lit "Dr. B"), JStr (lit "Addr B"));
             (JStr (lit "Dr. C"), JStr (lit "Addr C"));
             (JStr (lit "Dr. D"), JStr (lit "Addr D"));
             (JStr (lit "Dr. E"), JStr (lit "Addr E"))]
            eq_refl eq_refl eq_refl eq_refl seven_body_results _ _)).
  - simpl. lia.
  - simpl. repeat constructor; eexists; (split; [reflexivity|]);
      split; vm_compute; reflexivity.
Defined.

(** C5 as stated fails: on an HTTP 200 response whose body has no [results]
    field the result is the empty sequence, not a one-element one. *)
Lemma get_doctors_missing_results_counterexample :
  status_code (Response 200 (Ret (JObj denied_body))) = 200%Z
  /\ denied_body !! lit "results" = None
  /\ fst (get_doctors (lit "Pune") default_specialization
            (world_of_response (Response 200 (Ret (JObj denied_body)))))
     = Ret []
  /\ ~ (exists s,
          fst (get_doctors (lit "Pune") default_specialization
                 (world_of_response (Response 200 (Ret (JObj denied_body)))))
          = Ret [s]).
Proof.
  assert (E : fst (get_doctors (lit "Pune") default_specialization
                     (world_of_response (Response 200 (Ret (JObj denied_body)))))
              = Ret []) by (vm_compute; reflexivity).
  split; [reflexivity|]. split; [exact denied_body_results|].
  split; [exact E|]. rewrite E. intros [s Hs]. discriminate.
Qed.

(** C5 as amended, at the same input. *)
Lemma get_doctors_missing_results_witness :
  get_doctors (lit "Pune") default_specialization
    (world_of_response (Response 200 (Ret (JObj denied_body))))
  = (Ret [],
     after_request
       (places_url (Some (lit "KEY")) (lit "Pune") default_specialization)
       (world_of_response (Response 200 (Ret (JObj denied_body))))).
Proof.
  exact (get_doctors_missing_results (lit "Pune") default_specialization
           (world_of_response (Response 200 (Ret (JObj denied_body))))
           (Response 200 (Ret (JObj denied_body))) denied_body
           eq_refl eq_refl eq_refl eq_refl denied_body_results).
Defined.

(** C6 at a concrete input: a 404 whose body is not even JSON. *)
Lemma get_doctors_non_200_witness :
  fst (get_doctors (lit "Pune") default_specialization
         (world_of_response (Response 404 (Raise (PyError "JSONDecodeError")))))
  = Ret [lit "No doctors found or API issue occurred."]
  /\ trace (snd (get_doctors (lit "Pune") default_specialization
         (world_of_response (Response 404 (Raise (PyError "JSONDecodeError"))))))
     = [EvHttpGet (places_url (Some (lit "KEY")) (lit "Pune")
                     default_specialization)].
Proof.
  destruct (get_doctors_non_200 (lit "Pune") default_specialization
              (world_of_response (Response 404 (Raise (PyError "JSONDecodeError"))))
              (Response 404 (Raise (PyError "JSONDecodeError")))
              eq_refl eq_refl ltac:(discriminate)) as [E _].
  rewrite E. split; reflexivity.
Defined.

(** C7 at a concrete input: no credential, and the trace stays empty. *)
Lemma get_doctors_without_credential_witness :
  get_doctors (lit "Pune") default_specialization world_down
  = (Ret [lit "Google Maps API Key not found. Cannot fetch doctor recommendations."],
     world_down)
  /\ trace world_down = [].
Proof.
  split; [|reflexivity].
  exact (proj1 (get_doctors_without_credential (lit "Pune")
                  default_specialization world_down eq_refl)).
Defined.

(** C8 at a concrete input: two calls in a row against the seven-entry
    backend. *)
Lemma get_doctors_idempotent_witness :
  let w := world_of_response (Response 200 (Ret (JObj seven_body))) in
  fst (get_doctors (lit "Pune") default_specialization
         (snd (get_doctors (lit "Pune") default_specialization w)))
  = fst (get_doctors (lit "Pune") default_specialization w).
Proof.
  exact (proj1 (get_doctors_idempotent (lit "Pune") default_specialization
                  (world_of_response (Response 200 (Ret (JObj seven_body))))
                  eq_refl)).
Defined.

(** ** The temporary file on a fault *)

Definition pdf_session : session :=
  Session [] (lit "PDF") (Some [Byte.x00]) true.

Definition image_session : session :=
  Session [] (lit "Image") (Some [Byte.x89; Byte.x50; Byte.x4e; Byte.x47]) true.

(** A world in which the model's response carries no text, so that reading
    [response.text] raises ValueError. *)
Definition world_blocked : world :=
  World None
    (fun _ _ => Raise (PyError "ValueError"))
    0
    (fun _ _ => Raise (PyError "ConnectionError"))
    0
    (fun _ => lit "None")
    (fun _ => Ret sample_image)
    (fun _ => Raise (PyError "PdfReadError"))
    ∅ [].

(** C9 fails on the code.  Started without temporary files, a PDF analysis
    whose extraction raises, and an image analysis whose model call raises
    something other than an API error, both end with the fault and with the
    temporary file still in place. *)
Theorem main_fault_leaves_temporary_file :
  tmp_files world_down = ∅
  /\ fst (main pdf_session world_down) = Raise (PyError "PdfReadError")
  /\ tmp_files (snd (main pdf_session world_down))
     = {[ 0 := TmpFile (lit ".pdf") [Byte.x00] ]}
  /\ fst (main image_session world_blocked) = Raise (PyError "ValueError")
  /\ tmp_files (snd (main image_session world_blocked))
     = {[ 0 := TmpFile (lit ".png") [Byte.x89; Byte.x50; Byte.x4e; Byte.x47] ]}.
Proof. repeat split; vm_compute; reflexivity. Qed.

(** A run of the image branch that returns: the model answers, five doctors
    are listed, and the temporary file is gone. *)
Lemma main_normal_exit_cleans_witness :
  let w := world_of_response (Response 200 (Ret (JObj seven_body))) in
  let ui := Session (lit "Pune") (lit "Image")
              (Some [Byte.x89; Byte.x50; Byte.x4e; Byte.x47]) true in
  fst (main ui w) = Ret tt /\ tmp_files (snd (main ui w)) = tmp_files w.
Proof.
  cbv zeta.
  assert (H : fst (main (Session (lit "Pune") (lit "Image")
                           (Some [Byte.x89; Byte.x50; Byte.x4e; Byte.x47]) true)
                     (world_of_response (Response 200 (Ret (JObj seven_body)))))
              = Ret tt) by (vm_compute; reflexivity).
  split; [exact H | exact (main_normal_exit_cleans _ _ H)].
Defined.

(** The PDF branch on a file the reader rejects. *)
Lemma main_pdf_fault_keeps_file_witness :
  fst (main pdf_session world_down) = Raise (PyError "PdfReadError")
  /\ tmp_files (snd (main pdf_session world_down))
     = <[fresh (dom (tmp_files world_down)) := TmpFile (lit ".pdf") [Byte.x00]]>
         (tmp_files world_down).
Proof.
  apply (main_pdf_fault_keeps_file pdf_session world_down [Byte.x00]
           (PyError "PdfReadError")); try reflexivity.
  intros H. vm_compute in H. discriminate.
Defined.

(** * Further properties of the analyzer *)

(** The outcomes of the first [k] calls of an invocation started in [w] are
    API errors. *)
Definition first_attempts_fail (k : nat) (c : content) (ct : str) (w : world)
  : Prop :=
  forall i, i < k ->
    is_api_error (model_api w (model_calls w + i) (request c ct)) = true.

(** [k] failed attempts, each followed by its wait. *)
Definition retried (k : nat) : list tick :=
  concat (replicate k [Attempt true; Wait RETRY_DELAY]).

(** Closes a goal saying that an event is not in a concrete list. *)
Ltac differ H := first [ discriminate H | vm_compute in H; discriminate H ].

Ltac not_in_events :=
  rewrite ?list_elem_of_singleton, ?elem_of_cons, ?elem_of_nil;
  let H := fresh "H" in
  intros H;
  repeat (destruct H as [H|H]; [differ H|]);
  first [ differ H | destruct H ].

(** The attempt that ends an invocation before the retries are used up: it
    comes after [k < 3] API errors and is not an API error itself. *)
Lemma analyze_settled c ct w k (o : result str) :
  k < MAX_RETRIES ->
  first_attempts_fail k c ct w ->
  model_api w (model_calls w + k) (request c ct) = o ->
  is_api_error o = false ->
  fst (analyze_medical_report c ct w)
  = match o with Ret text => Ret (Some text) | Raise e => Raise e end
  /\ model_calls (snd (analyze_medical_report c ct w)) = model_calls w + S k
  /\ exists evs,
       trace (snd (analyze_medical_report c ct w)) = trace w ++ evs
       /\ timeline evs = retried k ++ [Attempt false]
       /\ EvWarning (lit "Using fallback analysis method due to API issues.")
          ∉ evs.
Proof.
  unfold MAX_RETRIES. intros Hk Hfail Ho Hok.
  unfold analyze_medical_report, attempt_body. simpl. run.
  destruct k as [|[|[|k]]]; [| | |lia].
  - rewrite Nat.add_0_r in Ho. rewrite Ho.
    destruct o as [text|[msg|cls]]; try discriminate; simpl;
      (split; [reflexivity|]; split; [lia|]; eexists [_];
       split; [reflexivity|]; split; [reflexivity|]; not_in_events).
  - destruct (is_api_error_inv _ (Hfail 0 ltac:(lia))) as [m0 E0].
    rewrite Nat.add_0_r in E0. rewrite E0. simpl.
    rewrite Nat.add_1_r in Ho. rewrite Ho.
    destruct o as [text|[msg|cls]]; try discriminate; simpl;
      (split; [reflexivity|]; split; [lia|];
       rewrite <- !app_assoc; simpl; eexists;
       split; [reflexivity|]; split; [reflexivity|]; not_in_events).
  - destruct (is_api_error_inv _ (Hfail 0 ltac:(lia))) as [m0 E0].
    destruct (is_api_error_inv _ (Hfail 1 ltac:(lia))) as [m1 E1].
    rewrite Nat.add_0_r in E0. rewrite Nat.add_1_r in E1.
    rewrite E0. simpl. rewrite E1. simpl.
    replace (model_calls w + 2) with (S (S (model_calls w))) in Ho by lia.
    rewrite Ho.
    destruct o as [text|[msg|cls]]; try discriminate; simpl;
      (split; [reflexivity|]; split; [lia|];
       rewrite <- !app_assoc; simpl; eexists;
       split; [reflexivity|]; split; [reflexivity|]; not_in_events).
Qed.

(** X3.  A retry recovers: when the first [k < 3] calls fail with an API
    error and the next one answers, the result is the model's text; the
    model was called [k + 1] times, each failure was followed by its wait of
    2 seconds, and the fallback was not used. *)
Theorem analyze_recovers_after_failures
  (c : content) (ct : str) (w : world) (k : nat) (text : str) :
  k < MAX_RETRIES ->
  first_attempts_fail k c ct w ->
  model_api w (model_calls w + k) (request c ct) = Ret text ->
  fst (analyze_medical_report c ct w) = Ret (Some text)
  /\ model_calls (snd (analyze_medical_report c ct w)) = model_calls w + S k
  /\ exists evs,
       trace (snd (analyze_medical_report c ct w)) = trace w ++ evs
       /\ timeline evs = retried k ++ [Attempt false]
       /\ EvWarning (lit "Using fallback analysis method due to API issues.")
          ∉ evs.
Proof.
  intros Hk Hfail Hcall.
  exact (analyze_settled c ct w k (Ret text) Hk Hfail Hcall eq_refl).
Qed.

(** X4.  Only API errors are retried: when a call raises anything else
    (after [k < 3] API errors), the invocation ends with that exception at
    once, without a further call, a wait after it, or the fallback. *)
Theorem analyze_other_exception_propagates
  (c : content) (ct : str) (w : world) (k : nat) (cls : string) :
  k < MAX_RETRIES ->
  first_attempts_fail k c ct w ->
  model_api w (model_calls w + k) (request c ct) = Raise (PyError cls) ->
  fst (analyze_medical_report c ct w) = Raise (PyError cls)
  /\ model_calls (snd (analyze_medical_report c ct w)) = model_calls w + S k
  /\ exists evs,
       trace (snd (analyze_medical_report c ct w)) = trace w ++ evs
       /\ timeline evs = retried k ++ [Attempt false]
       /\ EvWarning (lit "Using fallback analysis method due to API issues.")
          ∉ evs.
Proof.
  intros Hk Hfail Hcall.
  exact (analyze_settled c ct w k (Raise (PyError cls)) Hk Hfail Hcall eq_refl).
Qed.

(** X5.  What the user sees when the retries are used up: the same payload
    is sent three times; the two warnings count "Attempt 1/3" and
    "Attempt 2/3"; the error names only the message of the last failure;
    then comes the fallback warning.  Three calls are counted. *)
Theorem analyze_exhausted_trace
  (c : content) (ct : str) (w : world) (m0 m1 m2 : str) :
  let p := request c ct in
  model_api w (model_calls w) p = Raise (GoogleAPIError m0) ->
  model_api w (model_calls w + 1) p = Raise (GoogleAPIError m1) ->
  model_api w (model_calls w + 2) p = Raise (GoogleAPIError m2) ->
  trace (snd (analyze_medical_report c ct w))
  = trace w
    ++ [EvGenerate p (Raise (GoogleAPIError m0));
        EvWarning (lit "An error occurred. Retrying in 2 seconds... (Attempt 1/3)");
        EvSleep 2;
        EvGenerate p (Raise (GoogleAPIError m1));
        EvWarning (lit "An error occurred. Retrying in 2 seconds... (Attempt 2/3)");
        EvSleep 2;
        EvGenerate p (Raise (GoogleAPIError m2));
        EvError (lit "Failed to analyze the report after 3 attempts. Error: " ++ m2);
        EvWarning (lit "Using fallback analysis method due to API issues.")]
  /\ model_calls (snd (analyze_medical_report c ct w)) = model_calls w + 3.
Proof.
  intros p E0 E1 E2. subst p.
  rewrite Nat.add_1_r in E1.
  replace (model_calls w + 2) with (S (S (model_calls w))) in E2 by lia.
  unfold analyze_medical_report, attempt_body. simpl. run.
  rewrite E0. simpl. rewrite E1. simpl. rewrite E2. simpl.
  match goal with
  | |- context [fallback_analysis c ct ?w'] =>
      pose proof (fallback_analysis_trace c ct w') as Ht;
      pose proof (fallback_analysis_calls c ct w') as Hc;
      destruct (fallback_analysis c ct w') as [[r|e] w'']
  end; simpl in *; rewrite Ht, Hc; rewrite <- !app_assoc; simpl;
    (split; [reflexivity | lia]).
Qed.

(** The seconds slept in a timeline. *)
Definition waited (t : list tick) : nat :=
  foldr (fun x acc => match x with Wait secs => secs + acc | Attempt _ => acc end)
        0 t.

Lemma schedule_waited t :
  schedule t -> waited t = RETRY_DELAY * (attempts t - 1).
Proof. destruct 1; reflexivity. Qed.

(** X6.  An invocation sleeps 2 seconds for every attempt but the last: 0, 2
    or 4 seconds, never more than 4. *)
Theorem analyze_total_wait (c : content) (ct : str) (w : world) :
  exists evs,
    trace (snd (analyze_medical_report c ct w)) = trace w ++ evs
    /\ waited (timeline evs) = 2 * (attempts (timeline evs) - 1)
    /\ waited (timeline evs) <= 4.
Proof.
  destruct (analyze_schedule c ct w) as (evs & Htrace & Hsched & _).
  exists evs. split; [exact Htrace|].
  pose proof (schedule_waited _ Hsched) as Hw.
  pose proof (schedule_attempts _ Hsched) as Ha.
  unfold RETRY_DELAY, MAX_RETRIES in *. lia.
Qed.

(** * Further properties of the fallback *)

Definition nonspace (ch : N) : bool := negb (isspace ch).

Lemma split_from_concat s : forall cur,
  concat (split_from cur s) = cur ++ List.filter nonspace s.
Proof.
  induction s as [|ch s IH]; intros cur; simpl.
  - destruct cur; simpl; by rewrite ?app_nil_r.
  - unfold nonspace at 1.
    destruct (isspace ch); simpl.
    + destruct cur as [|x cur]; simpl; [apply (IH [])|].
      rewrite (IH []). reflexivity.
    + rewrite IH, <- app_assoc. reflexivity.
Qed.

Lemma split_from_words s : forall cur,
  Forall (fun ch => isspace ch = false) cur ->
  Forall (fun word => word <> [] /\ Forall (fun ch => isspace ch = false) word)
         (split_from cur s).
Proof.
  induction s as [|ch s IH]; intros cur Hcur; simpl.
  - destruct cur as [|x cur]; [constructor|].
    constructor; [split; [discriminate | exact Hcur] | constructor].
  - destruct (isspace ch) eqn:Hch.
    + destruct cur as [|x cur]; [by apply IH|].
      constructor; [split; [discriminate | exact Hcur] | by apply IH].
    + apply IH. apply Forall_app. split; [exact Hcur|].
      constructor; [exact Hch | constructor].
Qed.

(** X8.  The words counted by the fallback: every word of [content.split()]
    is non-empty and free of whitespace, the words together are exactly the
    non-whitespace characters of the text in order, and so the word count is
    at most the number of non-whitespace characters. *)
Theorem split_words_of_text (s : str) :
  Forall (fun word => word <> [] /\ Forall (fun ch => isspace ch = false) word)
         (split s)
  /\ concat (split s) = List.filter nonspace s
  /\ length (split s) <= length (List.filter nonspace s).
Proof.
  assert (Hwords := split_from_words s [] (Forall_nil_2 _)).
  assert (Hcat := split_from_concat s []). fold (split s) in Hwords, Hcat.
  simpl in Hcat. split; [exact Hwords|]. split; [exact Hcat|].
  rewrite <- Hcat. clear Hcat.
  induction Hwords as [|word words [Hne _] _ IH]; simpl; [lia|].
  rewrite length_app. destruct word; [done|]. simpl. lia.
Qed.

Lemma split_blank s :
  Forall (fun ch => isspace ch = true) s -> split s = [].
Proof.
  unfold split. induction 1 as [|ch s Hch _ IH]; simpl; [reflexivity|].
  rewrite Hch. exact IH.
Qed.

(** X9.  A text without a word (empty, or whitespace only, as a scanned PDF
    gives) and a model that is down: the analysis is the fallback text with
    "Word Count: 0 words". *)
Theorem analyze_blank_text_word_count_zero
  (s : str) (ct : str) (w : world) :
  ct <> lit "image" ->
  Forall (fun ch => isspace ch = true) s ->
  all_attempts_fail (CText s) ct w ->
  fst (analyze_medical_report (CText s) ct w) = Ret (Some (fallback_text 0))
  /\ contains (fallback_text 0) (lit "Word Count: 0 words").
Proof.
  intros Hct Hblank Hfail.
  destruct (analyze_exhausted (CText s) ct w Hfail) as [w' E].
  rewrite E, fallback_analysis_text, split_blank by assumption.
  split; [reflexivity|]. apply (fallback_text_word_count 0).
Qed.

(** * Further properties of the doctor finder *)

(** X10.  With a credential configured, every call makes exactly one
    request, whatever comes back (a list, a fault of the transport, a body
    that cannot be decoded): the request counter goes up by one, the trace
    gains the one [requests.get], and nothing else of the world changes. *)
Theorem get_doctors_single_request
  (location specialization : str) (w : world) :
  truthy (google_maps_api_key w) = true ->
  let url := places_url (google_maps_api_key w) location specialization in
  let w' := snd (get_doctors location specialization w) in
  w' = after_request url w
  /\ http_calls w' = S (http_calls w)
  /\ trace w' = trace w ++ [EvHttpGet url]
  /\ model_calls w' = model_calls w
  /\ tmp_files w' = tmp_files w.
Proof.
  intros Hkey url w'. subst w'. rewrite get_doctors_world, Hkey. fold url.
  repeat split.
Qed.

(** X11.  Nothing the lookup can fail on is caught: an exception of
    [requests.get], an exception of [response.json()] on a 200 response, and
    a 200 body that is not an object (so has no [get]) each end the call
    with that exception instead of the "no doctors found" list. *)
Theorem get_doctors_faults_propagate
  (location specialization : str) (w : world) :
  truthy (google_maps_api_key w) = true ->
  let url := places_url (google_maps_api_key w) location specialization in
  (forall e, places_api w (http_calls w) url = Raise e ->
             fst (get_doctors location specialization w) = Raise e)
  /\ (forall resp e,
        places_api w (http_calls w) url = Ret resp ->
        status_code resp = 200%Z ->
        response_json resp = Raise e ->
        fst (get_doctors location specialization w) = Raise e)
  /\ (forall resp body,
        places_api w (http_calls w) url = Ret resp ->
        status_code resp = 200%Z ->
        response_json resp = Ret body ->
        (forall fields, body <> JObj fields) ->
        fst (get_doctors location specialization w)
        = Raise (PyError "AttributeError")).
Proof.
  intros Hkey url. rewrite get_doctors_request by assumption. cbv zeta.
  fold url. split; [|split].
  - intros e ->. reflexivity.
  - intros resp e -> -> ->. reflexivity.
  - intros resp body -> -> -> Hbody. simpl.
    destruct body; try reflexivity. by destruct (Hbody fields).
Qed.

(** X12.  The list has as many entries as the response has, up to 5: when
    the first five entries (or all, if fewer) are objects with both fields,
    the result has [min 5 n] strings for a response of [n] entries. *)
Theorem get_doctors_count
  (location specialization : str) (w : world) (resp : response)
  (body : gmap str json) (items : list json) (fields : list (json * json)) :
  truthy (google_maps_api_key w) = true ->
  places_api w (http_calls w)
    (places_url (google_maps_api_key w) location specialization) = Ret resp ->
  status_code resp = 200%Z ->
  response_json resp = Ret (JObj body) ->
  body !! lit "results" = Some (JArr items) ->
  Forall2 (fun doc na => has_fields doc na.1 na.2) (take 5 items) fields ->
  exists out,
    fst (get_doctors location specialization w) = Ret out
    /\ length out = min 5 (length items)
    /\ out = (fun na => format_json (py_str w) na.1 ++ lit " - "
                        ++ format_json (py_str w) na.2) <$> fields.
Proof.
  intros Hkey Hresp Hstatus Hjson Hresults Hfields.
  rewrite get_doctors_request by assumption. cbv zeta.
  rewrite Hresp, Hstatus, Hjson. simpl. rewrite Hresults. simpl.
  rewrite (mapM_format_doc_fields _ fields) by assumption. simpl.
  eexists. split; [reflexivity|]. split; [|reflexivity].
  rewrite length_fmap. apply Forall2_length in Hfields.
  rewrite length_take in Hfields. rewrite <- Hfields. reflexivity.
Qed.

Lemma mapM_format_doc_missing good bad rest (fields : list (json * json)) o w :
  Forall2 (fun doc na => has_fields doc na.1 na.2) good fields ->
  bad = JObj o ->
  o !! lit "name" = None \/ o !! lit "formatted_address" = None ->
  mapM format_doc (good ++ bad :: rest) w = (Raise (PyError "KeyError"), w).
Proof.
  intros Hgood -> Hmiss.
  induction Hgood as [|d [n a] docs fields' (o' & -> & Hn & Ha) _ IH]; simpl.
  - rewrite run_bind, format_doc_pure. unfold format_doc_with. simpl.
    destruct (o !! lit "name") as [name|]; [|reflexivity].
    destruct Hmiss as [?| ->]; [discriminate | reflexivity].
  - rewrite run_bind, format_doc_pure. unfold format_doc_with. simpl in *.
    rewrite Hn, Ha. simpl. rewrite run_bind, IH. reflexivity.
Qed.

(** X13.  One entry without a field spoils the whole list: when, among the
    first five entries, one is an object that lacks [name] or
    [formatted_address] (the entries before it being complete), the call
    raises KeyError; no partial list is returned. *)
Theorem get_doctors_missing_field
  (location specialization : str) (w : world) (resp : response)
  (body : gmap str json) (items good rest : list json)
  (fields : list (json * json)) (o : gmap str json) :
  truthy (google_maps_api_key w) = true ->
  places_api w (http_calls w)
    (places_url (google_maps_api_key w) location specialization) = Ret resp ->
  status_code resp = 200%Z ->
  response_json resp = Ret (JObj body) ->
  body !! lit "results" = Some (JArr items) ->
  take 5 items = good ++ JObj o :: rest ->
  Forall2 (fun doc na => has_fields doc na.1 na.2) good fields ->
  o !! lit "name" = None \/ o !! lit "formatted_address" = None ->
  fst (get_doctors location specialization w) = Raise (PyError "KeyError").
Proof.
  intros Hkey Hresp Hstatus Hjson Hresults Htake Hgood Hmiss.
  rewrite get_doctors_request by assumption. cbv zeta.
  rewrite Hresp, Hstatus, Hjson. simpl. rewrite Hresults. simpl.
  rewrite Htake.
  by rewrite (mapM_format_doc_missing good (JObj o) rest fields o).
Qed.

(** X14.  Entries after the fifth are never looked at: two 200 responses
    whose [results] arrays agree on their first five entries give the same
    result, whatever follows (even entries that would raise). *)
Theorem get_doctors_ignores_later_entries
  (location specialization : str) (w w' : world) (resp resp' : response)
  (body body' : gmap str json) (items items' : list json) :
  truthy (google_maps_api_key w) = true ->
  google_maps_api_key w' = google_maps_api_key w ->
  py_str w' = py_str w ->
  let url := places_url (google_maps_api_key w) location specialization in
  places_api w (http_calls w) url = Ret resp ->
  places_api w' (http_calls w') url = Ret resp' ->
  status_code resp = 200%Z -> status_code resp' = 200%Z ->
  response_json resp = Ret (JObj body) ->
  response_json resp' = Ret (JObj body') ->
  body !! lit "results" = Some (JArr items) ->
  body' !! lit "results" = Some (JArr items') ->
  take 5 items' = take 5 items ->
  fst (get_doctors location specialization w')
  = fst (get_doctors location specialization w).
Proof.
  intros Hkey Hkey' Hrender url Hresp Hresp' Hs Hs' Hj Hj' Hr Hr' Htake.
  rewrite !get_doctors_request by congruence. cbv zeta.
  rewrite Hkey'. fold url. rewrite Hresp, Hresp', Hs, Hs', Hj, Hj'. simpl.
  rewrite Hr, Hr'. simpl. rewrite Htake.
  apply mapM_format_doc_render. exact Hrender.
Qed.

(** * Further properties of the extractor *)

Lemma extract_pages_fault (ts : list str) e bad rest :
  forall (good : list page) (text : str) (w : world),
    extract_text <$> good = Ret <$> ts ->
    extract_text bad = Raise e ->
    extract_pages text (good ++ bad :: rest) w = (Raise e, w).
Proof.
  induction ts as [|t ts IH]; intros [|p good] text w E Hbad;
    try discriminate; simpl.
  - rewrite run_bind. unfold lift. by rewrite Hbad.
  - injection E as Hp Hrest. rewrite run_bind. unfold lift. rewrite Hp.
    by apply IH.
Qed.

(** X15.  One page that cannot be read loses the whole document: when
    [extract_text()] raises on a page, [extract_text_from_pdf] ends with
    that exception, the text of the pages before it is dropped and the
    pages after it are not read; the world is as it was. *)
Theorem extract_text_from_pdf_page_fault
  (pdf_file : bytes) (good rest : list page) (bad : page) (ts : list str)
  (e : exn) (w : world) :
  pdf_reader w pdf_file = Ret (good ++ bad :: rest) ->
  extract_text <$> good = Ret <$> ts ->
  extract_text bad = Raise e ->
  extract_text_from_pdf pdf_file w = (Raise e, w).
Proof.
  intros Hreader Hgood Hbad. unfold extract_text_from_pdf.
  rewrite run_bind. unfold call. rewrite Hreader.
  by apply extract_pages_fault with ts.
Qed.

(** * Frames: what a computation leaves alone *)

(** A computation that leaves the component [f] of the world as it is,
    whatever its outcome. *)
Definition keeps {A B} (f : world -> B) (m : M A) : Prop :=
  forall w, f (snd (m w)) = f w.

Section Frames.
Context {B : Type} (f : world -> B).

Lemma frame_ret {A} (a : A) : keeps f (mret a : M A).
Proof. intros w. reflexivity. Qed.

Lemma frame_bind {A C} (m : M A) (k : A -> M C) :
  keeps f m -> (forall a, keeps f (k a)) -> keeps f (m ≫= k).
Proof.
  intros Hm Hk w. rewrite run_bind. specialize (Hm w).
  destruct (m w) as [[a|e] w']; simpl in *; [|exact Hm].
  rewrite Hk. exact Hm.
Qed.

Lemma frame_try {A} (body : M A) (handler : str -> M A) :
  keeps f body -> (forall msg, keeps f (handler msg)) ->
  keeps f (try_except_GoogleAPIError body handler).
Proof.
  intros Hb Hh w. unfold try_except_GoogleAPIError. specialize (Hb w).
  destruct (body w) as [[a|[msg|cls]] w']; simpl in *; try exact Hb.
  rewrite Hh. exact Hb.
Qed.

Lemma frame_for_range {A} (body : nat -> M (option A)) range :
  (forall i, keeps f (body i)) -> keeps f (for_range body range).
Proof.
  intros Hbody. induction range as [|i range IH]; simpl.
  - apply frame_ret.
  - apply frame_bind; [apply Hbody|].
    intros [v|]; [apply frame_ret | exact IH].
Qed.

Lemma frame_mapM {A C} (g : A -> M C) (l : list A) :
  (forall a, keeps f (g a)) -> keeps f (mapM g l).
Proof.
  intros Hg. induction l as [|a l IH]; simpl.
  - apply frame_ret.
  - apply frame_bind; [apply Hg|]. intros b.
    apply frame_bind; [exact IH|]. intros k. apply frame_ret.
Qed.
End Frames.

(** A primitive that does not touch the component at hand. *)
Ltac frame_prim :=
  let w := fresh "w" in
  intros w;
  unfold st_warning, st_error, st_title, st_subheader, st_write, st_image,
    time_sleep, emit, lift, ask, call, generate_text, requests_get, read_file,
    os_unlink, NamedTemporaryFile_write;
  simpl; repeat case_match; reflexivity.

Create HintDb frame discriminated.

(** Decomposes a frame goal along the structure of the computation. *)
Ltac frame :=
  repeat first
    [ solve [auto 2 with frame]
    | match goal with |- forall _, _ => intro end
    | apply frame_bind
    | apply frame_try
    | apply frame_for_range
    | apply frame_mapM
    | match goal with
      | |- keeps _ (if ?b then _ else _) => destruct b
      | |- keeps _ (match ?x with _ => _ end) => destruct x
      end
    | solve [frame_prim] ].

Lemma analyze_keeps_http_calls c ct :
  keeps http_calls (analyze_medical_report c ct).
Proof.
  unfold analyze_medical_report, attempt_body, fallback_analysis. frame.
Qed.

Lemma get_doctors_keeps_model_calls location specialization :
  keeps model_calls (get_doctors location specialization).
Proof. unfold get_doctors, format_doc. frame. Qed.

Lemma extract_pages_keeps {B} (f : world -> B) pages : forall text,
  keeps f (extract_pages text pages).
Proof. induction pages as [|p pages IH]; intros text; simpl; frame. Qed.

Lemma extract_text_from_pdf_keeps {B} (f : world -> B) pdf_file :
  keeps f (extract_text_from_pdf pdf_file).
Proof.
  unfold extract_text_from_pdf.
  apply frame_bind; [intros w; reflexivity|]. intros pages.
  apply extract_pages_keeps.
Qed.

#[export] Hint Resolve analyze_keeps_http_calls get_doctors_keeps_model_calls
  extract_text_from_pdf_keeps : frame.

(** * Further properties of the script body *)

(** X16.  Before a file is uploaded a run only draws the page: title and
    introduction, no model call, no request, no temporary file. *)
Theorem main_idle_without_upload (ui : session) (w : world) :
  ui_uploaded_file ui = None ->
  main ui w
  = (Ret tt,
     with_trace
       (trace w
        ++ [EvTitle (lit "HEALTH DIAGNOSIS");
            EvWrite (Some (lit "Upload a medical report (image or PDF) for AI-based analysis."))])
       w).
Proof.
  intros Hup. unfold main. cbv zeta. run. rewrite Hup.
  rewrite <- app_assoc.
  destruct (decide (ui_file_type ui = lit "Image")); reflexivity.
Qed.

(** X17.  Nothing is analysed before the button is pressed: a run with the
    button not pressed calls neither the model nor the places API, in either
    branch and whatever the upload. *)
Theorem main_without_button_calls_nothing (ui : session) (w : world) :
  ui_button ui = false ->
  model_calls (snd (main ui w)) = model_calls w
  /\ http_calls (snd (main ui w)) = http_calls w.
Proof.
  intros Hbutton.
  assert (Hm : keeps model_calls (main ui))
    by (unfold main, Image_open; cbv zeta; rewrite Hbutton; frame).
  assert (Hh : keeps http_calls (main ui))
    by (unfold main, Image_open; cbv zeta; rewrite Hbutton; frame).
  split; [apply Hm | apply Hh].
Qed.

(** X18.  Without a location there is no doctor lookup: a run with the
    location field empty makes no request, whatever else happens. *)
Theorem main_without_location_requests_nothing (ui : session) (w : world) :
  ui_location ui = [] ->
  http_calls (snd (main ui w)) = http_calls w.
Proof.
  intros Hloc.
  assert (Hh : keeps http_calls (main ui))
    by (unfold main, Image_open; cbv zeta; rewrite Hloc; frame).
  apply Hh.
Qed.

(** ** The call budget of one run *)

(** A computation that raises the counter [f] by at most [n]. *)
Definition within {A} (f : world -> nat) (n : nat) (m : M A) : Prop :=
  forall w, f w <= f (snd (m w)) <= f w + n.

Lemma within_keeps {A} f n (m : M A) : keeps f m -> within f n m.
Proof. intros Hm w. rewrite Hm. lia. Qed.

Lemma within_bind_first {A C} f n (m : M A) (k : A -> M C) :
  within f n m -> (forall a, keeps f (k a)) -> within f n (m ≫= k).
Proof.
  intros Hm Hk w. rewrite run_bind. specialize (Hm w).
  destruct (m w) as [[a|e] w']; simpl in *; [|exact Hm].
  rewrite Hk. exact Hm.
Qed.

Lemma within_bind_rest {A C} f n (m : M A) (k : A -> M C) :
  keeps f m -> (forall a, within f n (k a)) -> within f n (m ≫= k).
Proof.
  intros Hm Hk w. rewrite run_bind. specialize (Hm w).
  destruct (m w) as [[a|e] w']; simpl in *; [|rewrite Hm; lia].
  specialize (Hk a w'). rewrite Hm in Hk. exact Hk.
Qed.

Lemma analyze_within_model_calls c ct :
  within model_calls MAX_RETRIES (analyze_medical_report c ct).
Proof.
  intros w. destruct (analyze_schedule c ct w) as (evs & _ & Hsched & ->).
  pose proof (schedule_attempts _ Hsched). lia.
Qed.

Lemma get_doctors_within_http_calls location specialization :
  within http_calls 1 (get_doctors location specialization).
Proof.
  intros w. rewrite get_doctors_world.
  destruct (truthy (google_maps_api_key w)); simpl; lia.
Qed.

(** Decomposes a budget goal: the one call that counts is found by trying,
    at each bind, whether what comes first leaves the counter alone. *)
Ltac budget :=
  repeat first
    [ apply analyze_within_model_calls
    | apply get_doctors_within_http_calls
    | apply within_keeps; solve [frame]
    | apply within_bind_rest; [solve [frame] | intro]
    | apply within_bind_first; [ | intro; solve [frame] ]
    | match goal with
      | |- within _ _ (if ?b then _ else _) => destruct b
      | |- within _ _ (match ?x with _ => _ end) => destruct x
      end ].

(** X19.  One run of the script calls the model at most 3 times and the
    places API at most once, in either branch and on every outcome. *)
Theorem main_call_budget (ui : session) (w : world) :
  model_calls w <= model_calls (snd (main ui w)) <= model_calls w + 3
  /\ http_calls w <= http_calls (snd (main ui w)) <= http_calls w + 1.
Proof.
  assert (Hm : within model_calls MAX_RETRIES (main ui))
    by (unfold main, Image_open; cbv zeta; budget).
  assert (Hh : within http_calls 1 (main ui))
    by (unfold main, Image_open; cbv zeta; budget).
  split; [apply Hm | apply Hh].
Qed.

(** ** End to end *)

Lemma request_text s : request (CText s) (lit "text") = Single (prompt ++ nl ++ nl ++ s).
Proof.
  unfold request. destruct (decide (lit "text" = lit "image")) as [H|];
    [vm_compute in H; discriminate | reflexivity].
Qed.

Lemma request_image i : request (CImage i) (lit "image") = Parts prompt (CImage i).
Proof.
  unfold request. destruct (decide (lit "image" = lit "image")); done.
Qed.

(** X20.  A PDF run that goes well, with no location: the model is sent the
    prompt, a blank line and the text of all pages in order, once; its
    answer is shown under the results heading; the run returns, and the
    temporary files are as before. *)
Theorem main_pdf_success
  (ui : session) (w : world) (data : bytes) (pages : list page)
  (ts : list str) (answer : str) :
  ui_file_type ui <> lit "Image" ->
  ui_uploaded_file ui = Some data ->
  ui_button ui = true ->
  ui_location ui = [] ->
  pdf_reader w data = Ret pages ->
  extract_text <$> pages = Ret <$> ts ->
  model_api w (model_calls w) (Single (prompt ++ nl ++ nl ++ concat ts))
  = Ret answer ->
  fst (main ui w) = Ret tt
  /\ trace (snd (main ui w))
     = trace w
       ++ [EvTitle (lit "HEALTH DIAGNOSIS");
           EvWrite (Some (lit "Upload a medical report (image or PDF) for AI-based analysis."));
           EvWrite (Some (lit "PDF uploaded successfully"));
           EvGenerate (Single (prompt ++ nl ++ nl ++ concat ts)) (Ret answer);
           EvSubheader (lit "Report Analysis Results:");
           EvWrite (Some answer)]
  /\ tmp_files (snd (main ui w)) = tmp_files w.
Proof.
  intros Htype Hup Hbutton Hloc Hreader Htexts Hmodel.
  pose proof (request_text (concat ts)) as Hreq.
  remember (Single (prompt ++ nl ++ nl ++ concat ts)) as p eqn:Hp. clear Hp.
  unfold main, NamedTemporaryFile_write, read_file, os_unlink.
  cbv zeta. run.
  destruct (decide (ui_file_type ui = lit "Image")); [done|].
  rewrite Hup, Hbutton, Hloc. simpl. rewrite lookup_insert_eq. simpl.
  match goal with
  | |- context [extract_text_from_pdf data ?w1] =>
      assert (Hx : extract_text_from_pdf data w1 = (Ret (concat ts), w1))
  end.
  { unfold extract_text_from_pdf. rewrite run_bind. unfold call. simpl.
    rewrite Hreader. apply (extract_pages_texts ts pages []). exact Htexts. }
  rewrite Hx. clear Hx. simpl.
  unfold analyze_medical_report, attempt_body. simpl. run.
  rewrite Hreq, Hmodel. simpl. rewrite lookup_insert_eq. simpl.
  rewrite <- !app_assoc. simpl.
  repeat split.
  apply delete_insert_id, not_elem_of_dom, is_fresh.
Qed.

(** X21.  In the image branch the upload is opened on every run, pressed
    button or not: when [Image.open] raises on it, the run ends with that
    exception, before any model call, and the temporary file stays. *)
Theorem main_image_open_fault_keeps_file
  (ui : session) (w : world) (data : bytes) (e : exn) :
  ui_file_type ui = lit "Image" ->
  ui_uploaded_file ui = Some data ->
  pil_open w data = Raise e ->
  fst (main ui w) = Raise e
  /\ tmp_files (snd (main ui w))
     = <[fresh (dom (tmp_files w)) := TmpFile (lit ".png") data]> (tmp_files w)
  /\ model_calls (snd (main ui w)) = model_calls w.
Proof.
  intros Htype Hup Hopen.
  unfold main, Image_open, NamedTemporaryFile_write, read_file.
  cbv zeta. run.
  destruct (decide (ui_file_type ui = lit "Image")); [|done].
  rewrite Hup. simpl. rewrite lookup_insert_eq. simpl.
  rewrite Hopen. simpl. done.
Qed.

(** X22.  An image run that goes well, with a location but no places
    credential: the model is sent the prompt and the image as two parts,
    once; its answer is shown; under the doctors heading the user reads the
    explanation that the key is missing; no request is made and the
    temporary file is gone. *)
Theorem main_image_success_without_places_key
  (ui : session) (w : world) (data : bytes) (img : image) (answer : str) :
  ui_file_type ui = lit "Image" ->
  ui_uploaded_file ui = Some data ->
  ui_button ui = true ->
  ui_location ui <> [] ->
  pil_open w data = Ret img ->
  model_api w (model_calls w) (Parts prompt (CImage img)) = Ret answer ->
  truthy (google_maps_api_key w) = false ->
  fst (main ui w) = Ret tt
  /\ trace (snd (main ui w))
     = trace w
       ++ [EvTitle (lit "HEALTH DIAGNOSIS");
           EvWrite (Some (lit "Upload a medical report (image or PDF) for AI-based analysis."));
           EvImage img;
           EvGenerate (Parts prompt (CImage img)) (Ret answer);
           EvSubheader (lit "Report Analysis Results:");
           EvWrite (Some answer);
           EvSubheader (lit "Recommended Doctors:");
           EvWrite (Some (lit "Google Maps API Key not found. Cannot fetch doctor recommendations."))]
  /\ http_calls (snd (main ui w)) = http_calls w
  /\ tmp_files (snd (main ui w)) = tmp_files w.
Proof.
  intros Htype Hup Hbutton Hloc Hopen Hmodel Hkey.
  pose proof (request_image img) as Hreq.
  remember (Parts prompt (CImage img)) as p eqn:Hp. clear Hp.
  unfold main, Image_open, NamedTemporaryFile_write, read_file, os_unlink.
  cbv zeta. run.
  destruct (decide (ui_file_type ui = lit "Image")); [|done].
  rewrite Hup, Hbutton. simpl. rewrite lookup_insert_eq. simpl.
  rewrite Hopen. simpl.
  unfold analyze_medical_report, attempt_body. simpl. run.
  rewrite Hreq, Hmodel. simpl.
  destruct (ui_location ui) as [|ch location] eqn:El; [done|].
  rewrite get_doctors_no_key by exact Hkey. simpl.
  rewrite lookup_insert_eq. simpl. rewrite <- !app_assoc. simpl.
  repeat split.
  apply delete_insert_id, not_elem_of_dom, is_fresh.
Qed.

(** ** The start of the script *)

(** [st.stop()]: the script ends here. *)
Definition st_stop {A} : M A :=
  fun w => (Raise (PyError "StopException"), w).

(** The module-level check of the Gemini key, read with
    [os.getenv("GEMINI_API_KEY")]. *)
Definition check_api_key (api_key : option str) : M unit :=
  if negb (truthy api_key)
  then
    st_error (lit "Gemini API key not found. Please set the GEMINI_API_KEY environment variable.");;
    st_stop
  else mret tt.

(** The script from its first line: the check of the key, then (the
    definitions having no effect) [main()]. *)
Definition script (api_key : option str) (ui : session) : M unit :=
  check_api_key api_key;;
  main ui.

(** X23.  Without a Gemini key the script stops at once: it shows the one
    error and ends, whatever the widgets hold; no file is written, no model
    call and no request is made.  With a key it is [main]. *)
Theorem script_stops_without_api_key
  (api_key : option str) (ui : session) (w : world) :
  (truthy api_key = false ->
   script api_key ui w
   = (Raise (PyError "StopException"),
      with_trace
        (trace w ++ [EvError (lit "Gemini API key not found. Please set the GEMINI_API_KEY environment variable.")])
        w))
  /\ (truthy api_key = true -> script api_key ui w = main ui w).
Proof.
  unfold script, check_api_key, st_stop. split; intros Hkey; run;
    rewrite Hkey; simpl; [reflexivity|].
  destruct (main ui w) as [[[]|e] w']; reflexivity.
Qed.

(** * Further concrete runs *)

(** A model that fails its first call with an API error and answers from
    the second on. *)
Definition flaky_model : nat -> payload -> result str :=
  fun n _ =>
    match n with
    | 0 => Raise (GoogleAPIError (lit "503 Service Unavailable"))
    | _ => Ret (lit "No issues detected.")
    end.

Definition world_flaky : world :=
  World None flaky_model 0 (fun _ _ => Raise (PyError "ConnectionError")) 0
    (fun _ => lit "None") (fun _ => Ret sample_image)
    (fun _ => Ret [Page (Ret (lit "Hb 9.1 ")); Page (Ret []); Page (Ret (lit "low"))])
    ∅ [].

(** A world with a places credential whose backend cannot be reached and
    whose libraries reject every upload. *)
Definition world_unreachable : world :=
  World (Some (lit "KEY")) (fun _ _ => Ret (lit "No issues detected.")) 0
    (fun _ _ => Raise (PyError "ConnectionError")) 0
    (fun _ => lit "None")
    (fun _ => Raise (PyError "UnidentifiedImageError"))
    (fun _ => Ret [Page (Ret (lit "Hb 9.1 "));
                   Page (Raise (PyError "PdfReadError"));
                   Page (Ret (lit "low"))])
    ∅ [].

Definition sample_text : content := CText (lit "Hb 9.1 low").

Lemma lit_text_not_image : lit "text" <> lit "image".
Proof. intros H. vm_compute in H. discriminate. Qed.

Lemma lit_pdf_not_image : lit "PDF" <> lit "Image".
Proof. intros H. vm_compute in H. discriminate. Qed.

(** X3 at a concrete input: one failure, then an answer. *)
Lemma analyze_recovers_after_failures_witness :
  fst (analyze_medical_report sample_text (lit "text") world_flaky)
  = Ret (Some (lit "No issues detected."))
  /\ model_calls (snd (analyze_medical_report sample_text (lit "text") world_flaky))
     = 2.
Proof.
  assert (Hfail : first_attempts_fail 1 sample_text (lit "text") world_flaky)
    by (intros [|i] Hi; [reflexivity | lia]).
  destruct (analyze_recovers_after_failures sample_text (lit "text") world_flaky
              1 (lit "No issues detected.") ltac:(unfold MAX_RETRIES; lia)
              Hfail eq_refl) as (Hres & Hcalls & _).
  split; [exact Hres | exact Hcalls].
Defined.

(** X4 at a concrete input: the first call raises ValueError. *)
Lemma analyze_other_exception_propagates_witness :
  fst (analyze_medical_report sample_text (lit "text") world_blocked)
  = Raise (PyError "ValueError")
  /\ model_calls (snd (analyze_medical_report sample_text (lit "text") world_blocked))
     = 1.
Proof.
  assert (Hfail : first_attempts_fail 0 sample_text (lit "text") world_blocked)
    by (intros i Hi; lia).
  destruct (analyze_other_exception_propagates sample_text (lit "text")
              world_blocked 0 "ValueError" ltac:(unfold MAX_RETRIES; lia)
              Hfail eq_refl) as (Hres & Hcalls & _).
  split; [exact Hres | exact Hcalls].
Defined.

(** X5 at a concrete input: the model is down. *)
Lemma analyze_exhausted_trace_witness :
  model_calls (snd (analyze_medical_report sample_text (lit "text") world_down))
  = 3
  /\ last (trace (snd (analyze_medical_report sample_text (lit "text") world_down)))
     = Some (EvWarning (lit "Using fallback analysis method due to API issues.")).
Proof.
  destruct (analyze_exhausted_trace sample_text (lit "text") world_down
              (lit "503 Service Unavailable") (lit "503 Service Unavailable")
              (lit "503 Service Unavailable") eq_refl eq_refl eq_refl)
    as [Htrace Hcalls].
  split; [exact Hcalls|]. rewrite Htrace. reflexivity.
Defined.

(** X7 at a concrete input: the model answers at once. *)
Lemma analyze_returns_text_witness :
  exists text, Some (lit "No issues detected.") = Some text.
Proof.
  apply (analyze_returns_text sample_text (lit "text")
           (world_of_response (Response 200 (Ret JNull)))).
  vm_compute. reflexivity.
Defined.

(** X9 at a concrete input: a text of two spaces. *)
Lemma analyze_blank_text_word_count_zero_witness :
  fst (analyze_medical_report (CText (lit "  ")) (lit "text") world_down)
  = Ret (Some (fallback_text 0)).
Proof.
  refine (proj1 (analyze_blank_text_word_count_zero (lit "  ") (lit "text")
                   world_down lit_text_not_image _ _)).
  - repeat constructor.
  - intros i Hi. reflexivity.
Defined.

Definition two_body : gmap str json :=
  {[ lit "results" := JArr [entry "Dr. A" "Addr A"; entry "Dr. B" "Addr B"] ]}.

Definition nameless : gmap str json :=
  {[ lit "formatted_address" := JStr (lit "Addr B") ]}.

Definition spoiled_body : gmap str json :=
  {[ lit "results" := JArr [entry "Dr. A" "Addr A"; JObj nameless] ]}.

(** The seven entries with the sixth replaced by [null]. *)
Definition seven_results_bad_tail : list json :=
  take 5 seven_results ++ [JNull; entry "Dr. G" "Addr G"].

Definition bad_tail_body : gmap str json :=
  {[ lit "results" := JArr seven_results_bad_tail ]}.

Example two_body_results :
  two_body !! lit "results"
  = Some (JArr [entry "Dr. A" "Addr A"; entry "Dr. B" "Addr B"]).
Proof. vm_compute. reflexivity. Qed.

Example spoiled_body_results :
  spoiled_body !! lit "results"
  = Some (JArr [entry "Dr. A" "Addr A"; JObj nameless]).
Proof. vm_compute. reflexivity. Qed.

Example bad_tail_body_results :
  bad_tail_body !! lit "results" = Some (JArr seven_results_bad_tail).
Proof. vm_compute. reflexivity. Qed.

Lemma entry_has_fields name address :
  has_fields (entry name address) (JStr (lit name)) (JStr (lit address)).
Proof.
  eexists. split; [reflexivity|]. split.
  - apply lookup_insert_eq.
  - rewrite lookup_insert_ne by (intros H; vm_compute in H; discriminate).
    apply lookup_singleton_eq.
Qed.

(** X10 at a concrete input: a 404 answer. *)
Lemma get_doctors_single_request_witness :
  http_calls (snd (get_doctors (lit "Pune") default_specialization
                     (world_of_response (Response 404 (Ret JNull)))))
  = 1.
Proof.
  destruct (get_doctors_single_request (lit "Pune") default_specialization
              (world_of_response (Response 404 (Ret JNull))) eq_refl)
    as (_ & Hcalls & _).
  exact Hcalls.
Defined.

(** X11 at a concrete input: the backend cannot be reached. *)
Lemma get_doctors_faults_propagate_witness :
  fst (get_doctors (lit "Pune") default_specialization world_unreachable)
  = Raise (PyError "ConnectionError").
Proof.
  destruct (get_doctors_faults_propagate (lit "Pune") default_specialization
              world_unreachable eq_refl) as (Hget & _).
  exact (Hget _ eq_refl).
Defined.

(** X12 at a concrete input: a response of two entries. *)
Lemma get_doctors_count_witness :
  exists out,
    fst (get_doctors (lit "Pune") default_specialization
           (world_of_response (Response 200 (Ret (JObj two_body)))))
    = Ret out
    /\ length out = 2.
Proof.
  destruct (get_doctors_count (lit "Pune") default_specialization
              (world_of_response (Response 200 (Ret (JObj two_body))))
              (Response 200 (Ret (JObj two_body))) two_body
              [entry "Dr. A" "Addr A"; entry "Dr. B" "Addr B"]
              [(JStr (lit "Dr. A"), JStr (lit "Addr A"));
               (JStr (lit "Dr. B"), JStr (lit "Addr B"))]
              eq_refl eq_refl eq_refl eq_refl two_body_results)
    as (out & Hout & Hlen & _).
  - repeat constructor; apply entry_has_fields.
  - exists out. split; [exact Hout | exact Hlen].
Defined.

(** X13 at a concrete input: the second entry has no [name]. *)
Lemma get_doctors_missing_field_witness :
  fst (get_doctors (lit "Pune") default_specialization
         (world_of_response (Response 200 (Ret (JObj spoiled_body)))))
  = Raise (PyError "KeyError").
Proof.
  refine (get_doctors_missing_field (lit "Pune") default_specialization
            (world_of_response (Response 200 (Ret (JObj spoiled_body))))
            (Response 200 (Ret (JObj spoiled_body))) spoiled_body
            [entry "Dr. A" "Addr A"; JObj nameless]
            [entry "Dr. A" "Addr A"] []
            [(JStr (lit "Dr. A"), JStr (lit "Addr A"))] nameless
            eq_refl eq_refl eq_refl eq_refl spoiled_body_results eq_refl _ _).
  - repeat constructor; apply entry_has_fields.
  - left. vm_compute. reflexivity.
Defined.

(** X14 at a concrete input: the seven entries, and the same with [null]
    in sixth place. *)
Lemma get_doctors_ignores_later_entries_witness :
  fst (get_doctors (lit "Pune") default_specialization
         (world_of_response (Response 200 (Ret (JObj bad_tail_body)))))
  = fst (get_doctors (lit "Pune") default_specialization
           (world_of_response (Response 200 (Ret (JObj seven_body))))).
Proof.
  exact (get_doctors_ignores_later_entries (lit "Pune") default_specialization
           (world_of_response (Response 200 (Ret (JObj seven_body))))
           (world_of_response (Response 200 (Ret (JObj bad_tail_body))))
           (Response 200 (Ret (JObj seven_body)))
           (Response 200 (Ret (JObj bad_tail_body)))
           seven_body bad_tail_body seven_results seven_results_bad_tail
           eq_refl eq_refl eq_refl eq_refl eq_refl eq_refl eq_refl eq_refl
           eq_refl seven_body_results bad_tail_body_results eq_refl).
Defined.

(** X15 at a concrete input: the second of three pages cannot be read. *)
Lemma extract_text_from_pdf_page_fault_witness :
  extract_text_from_pdf [Byte.x25; Byte.x50; Byte.x44; Byte.x46] world_unreachable
  = (Raise (PyError "PdfReadError"), world_unreachable).
Proof.
  exact (extract_text_from_pdf_page_fault
           [Byte.x25; Byte.x50; Byte.x44; Byte.x46]
           [Page (Ret (lit "Hb 9.1 "))] [Page (Ret (lit "low"))]
           (Page (Raise (PyError "PdfReadError"))) [lit "Hb 9.1 "]
           (PyError "PdfReadError") world_unreachable
           eq_refl eq_refl eq_refl).
Defined.

Definition png_bytes : bytes := [Byte.x89; Byte.x50; Byte.x4e; Byte.x47].
Definition pdf_bytes : bytes := [Byte.x25; Byte.x50; Byte.x44; Byte.x46].

(** X16 at a concrete input: the PDF branch before any upload. *)
Lemma main_idle_without_upload_witness :
  fst (main (Session (lit "Pune") (lit "PDF") None true) world_down) = Ret tt
  /\ model_calls (snd (main (Session (lit "Pune") (lit "PDF") None true) world_down))
     = 0.
Proof.
  rewrite (main_idle_without_upload
             (Session (lit "Pune") (lit "PDF") None true) world_down eq_refl).
  split; reflexivity.
Defined.

(** X17 at a concrete input: an image is uploaded, the button not pressed. *)
Lemma main_without_button_calls_nothing_witness :
  model_calls (snd (main (Session (lit "Pune") (lit "Image") (Some png_bytes) false)
                         (world_of_response (Response 200 (Ret JNull)))))
  = 0
  /\ http_calls (snd (main (Session (lit "Pune") (lit "Image") (Some png_bytes) false)
                           (world_of_response (Response 200 (Ret JNull)))))
     = 0.
Proof.
  exact (main_without_button_calls_nothing
           (Session (lit "Pune") (lit "Image") (Some png_bytes) false)
           (world_of_response (Response 200 (Ret JNull))) eq_refl).
Defined.

(** X18 at a concrete input: a PDF analysis with the location left empty. *)
Lemma main_without_location_requests_nothing_witness :
  http_calls (snd (main (Session [] (lit "PDF") (Some pdf_bytes) true)
                        (world_of_response (Response 200 (Ret JNull)))))
  = 0.
Proof.
  exact (main_without_location_requests_nothing
           (Session [] (lit "PDF") (Some pdf_bytes) true)
           (world_of_response (Response 200 (Ret JNull))) eq_refl).
Defined.

(** X20 at a concrete input: three pages, the middle one empty. *)
Lemma main_pdf_success_witness :
  fst (main (Session [] (lit "PDF") (Some pdf_bytes) true)
            (world_of_response (Response 200 (Ret JNull))))
  = Ret tt
  /\ tmp_files (snd (main (Session [] (lit "PDF") (Some pdf_bytes) true)
                          (world_of_response (Response 200 (Ret JNull)))))
     = ∅.
Proof.
  destruct (main_pdf_success
              (Session [] (lit "PDF") (Some pdf_bytes) true)
              (world_of_response (Response 200 (Ret JNull)))
              pdf_bytes
              [Page (Ret (lit "Hb 9.1 ")); Page (Ret []); Page (Ret (lit "low"))]
              [lit "Hb 9.1 "; []; lit "low"] (lit "No issues detected.")
              lit_pdf_not_image eq_refl eq_refl eq_refl eq_refl eq_refl eq_refl)
    as (Hres & _ & Hfiles).
  split; [exact Hres | exact Hfiles].
Defined.

(** X21 at a concrete input: an upload that is not an image, the button not
    pressed. *)
Lemma main_image_open_fault_keeps_file_witness :
  fst (main (Session [] (lit "Image") (Some pdf_bytes) false) world_unreachable)
  = Raise (PyError "UnidentifiedImageError")
  /\ tmp_files (snd (main (Session [] (lit "Image") (Some pdf_bytes) false)
                          world_unreachable))
     !! 0
     = Some (TmpFile (lit ".png") pdf_bytes).
Proof.
  destruct (main_image_open_fault_keeps_file
              (Session [] (lit "Image") (Some pdf_bytes) false)
              world_unreachable pdf_bytes (PyError "UnidentifiedImageError")
              eq_refl eq_refl eq_refl) as (Hres & Hfiles & _).
  split; [exact Hres|]. rewrite Hfiles. vm_compute. reflexivity.
Defined.

(** A world in which the model answers and no places credential is set. *)
Definition world_no_places_key : world :=
  World None (fun _ _ => Ret (lit "No issues detected.")) 0
    (fun _ _ => Raise (PyError "ConnectionError")) 0
    (fun _ => lit "None") (fun _ => Ret sample_image)
    (fun _ => Raise (PyError "PdfReadError"))
    ∅ [].

Lemma lit_pune_not_empty : lit "Pune" <> [].
Proof. intros H. vm_compute in H. discriminate. Qed.

(** X22 at a concrete input: an image, a location, no places credential. *)
Lemma main_image_success_without_places_key_witness :
  fst (main (Session (lit "Pune") (lit "Image") (Some png_bytes) true)
            world_no_places_key)
  = Ret tt
  /\ http_calls (snd (main (Session (lit "Pune") (lit "Image") (Some png_bytes) true)
                           world_no_places_key))
     = 0.
Proof.
  destruct (main_image_success_without_places_key
              (Session (lit "Pune") (lit "Image") (Some png_bytes) true)
              world_no_places_key png_bytes sample_image
              (lit "No issues detected.")
              eq_refl eq_refl eq_refl lit_pune_not_empty eq_refl eq_refl eq_refl)
    as (Hres & _ & Hcalls & _).
  split; [exact Hres | exact Hcalls].
Defined.

(** * When the "no doctors found" list is returned *)

(** Whether [" - "] occurs in a string. *)
Fixpoint has_separator (s : str) : bool :=
  match s with
  | [] => false
  | ch :: rest =>
      match rest with
      | dash :: sp :: _ =>
          ((ch =? 32) && (dash =? 45) && (sp =? 32))%N || has_separator rest
      | _ => false
      end
  end.

Lemma contains_has_separator s :
  contains s (lit " - ") -> has_separator s = true.
Proof.
  intros (before & after & ->).
  induction before as [|ch before IH]; [reflexivity|].
  change ((ch :: before) ++ lit " - " ++ after)
    with (ch :: (before ++ lit " - " ++ after)).
  cbn [has_separator]. rewrite IH.
  destruct (before ++ lit " - " ++ after) as [|x [|y rest]];
    [discriminate IH | discriminate IH | apply orb_true_r].
Qed.

Lemma mapM_format_doc_separator docs w out :
  fst (mapM format_doc docs w) = Ret out ->
  Forall (fun line => contains line (lit " - ")) out.
Proof.
  revert out. induction docs as [|d docs IH]; simpl; intros out.
  - intros [= <-]. constructor.
  - rewrite run_bind, format_doc_pure.
    destruct (format_doc_with (py_str w) d) as [line|e] eqn:Hline; simpl;
      [|discriminate].
    rewrite run_bind.
    destruct (mapM format_doc docs w) as [[k|e] w1]; simpl in *;
      [|discriminate].
    intros [= <-]. constructor; [|by apply IH].
    unfold format_doc_with in Hline.
    destruct (subscript d (lit "name")) as [name|]; [|discriminate].
    destruct (subscript d (lit "formatted_address")) as [address|];
      [|discriminate].
    injection Hline as <-. by eexists _, _.
Qed.

(** X24.  The "no doctors found" list means a status other than 200: when
    [get_doctors] returns exactly that one-element list, a credential was
    configured and the response had a status other than 200.  A 200 response
    never yields it, since every line made from an entry contains " - ". *)
Theorem get_doctors_message_means_other_status
  (location specialization : str) (w : world) :
  fst (get_doctors location specialization w) = Ret [no_doctors_message] ->
  truthy (google_maps_api_key w) = true
  /\ exists resp,
       places_api w (http_calls w)
         (places_url (google_maps_api_key w) location specialization)
       = Ret resp
       /\ status_code resp <> 200%Z.
Proof.
  destruct (truthy (google_maps_api_key w)) eqn:Hkey.
  - rewrite get_doctors_request by assumption. cbv zeta.
    destruct (places_api w _ _) as [resp|e]; [|discriminate].
    destruct (status_code resp =? 200)%Z eqn:Hstatus.
    + destruct (response_json resp) as [body|e]; [|discriminate].
      destruct (get_results body) as [results|e]; [|discriminate].
      destruct (first_five results) as [docs|e]; [|discriminate].
      intros Hout. apply mapM_format_doc_separator in Hout.
      apply Forall_cons in Hout as [Hsep _].
      apply contains_has_separator in Hsep. vm_compute in Hsep. discriminate.
    + intros _. split; [reflexivity|]. exists resp.
      split; [reflexivity | by apply Z.eqb_neq].
  - rewrite get_doctors_no_key by assumption. intros H.
    vm_compute in H. discriminate.
Qed.

(** X24 at a concrete input: the 404 answer. *)
Lemma get_doctors_message_means_other_status_witness :
  exists resp,
    places_api (world_of_response (Response 404 (Ret JNull))) 0
      (places_url (Some (lit "KEY")) (lit "Pune") default_specialization)
    = Ret resp
    /\ status_code resp <> 200%Z.
Proof.
  refine (proj2 (get_doctors_message_means_other_status (lit "Pune")
                   default_specialization
                   (world_of_response (Response 404 (Ret JNull))) _)).
  vm_compute. reflexivity.
Defined.
